(** * webpack.config.js: the build configuration of the hubs client

    A shallow embedding of [webpack.config.js]: the certificate helper
    [createHTTPSConfig] over an explicit file system, the
    [LodashTemplatePlugin] hook, the [config] object literal and the exported
    function that optionally adds the smoke-test variant.

    Conventions.
    - [process.env] is a finite map from names to strings; a missing name
      reads as [None] (JavaScript [undefined]).
    - Paths built with [path.join(__dirname, a, b)] are the segment lists
      [[a; b]] below [__dirname]; the empty list is [__dirname] itself.
    - Calls into third-party packages whose result the file only passes on
      ([selfsigned.generate], [_.template], [Date.prototype.toGMTString])
      are parameters of the development. *)

From Stdlib Require Import Ascii String List.
From stdpp Require Import gmap strings list fin_maps.

Local Open Scope string_scope.
Local Set Warnings "-register-all".

(** ** JavaScript values appearing in option bags *)

Inductive jsval : Type :=
| JUndefined
| JBool (b : bool)
| JNum (n : Z)
| JStr (s : string)
| JRegExp (source : string)
| JPath (segments : list string)
| JArr (items : list jsval)
| JObj (props : list (string * jsval))
| JExtract (options : jsval)    (* ExtractTextPlugin.extract(options) *)
| JStringify (value : jsval).   (* JSON.stringify(value) *)

(** A value read from [process.env]: a string or [undefined]. *)
Definition of_env (v : option string) : jsval :=
  match v with
  | Some s => JStr s
  | None => JUndefined
  end.

(** Property access [o.k] on an object literal; [undefined] elsewhere. *)
Fixpoint assoc {A : Type} (k : string) (l : list (string * A)) : option A :=
  match l with
  | [] => None
  | (k', v) :: l' => if String.eqb k k' then Some v else assoc k l'
  end.

Definition get (k : string) (v : jsval) : jsval :=
  match v with
  | JObj props => default JUndefined (assoc k props)
  | _ => JUndefined
  end.

Definition item (i : nat) (v : jsval) : jsval :=
  match v with
  | JArr items => nth i items JUndefined
  | _ => JUndefined
  end.

(** ** [process.env] *)

Module Env.

(** [process.env.NAME] *)
Definition read (env : gmap string string) (name : string) : option string :=
  env !! name.

(** JavaScript truthiness of a string-or-undefined value: only
    [undefined] and the empty string are falsy. *)
Definition truthy (v : option string) : bool :=
  match v with
  | Some s => negb (String.eqb s "")
  | None => false
  end.

(** [v === "literal"] *)
Definition strict_eq (v : option string) (lit : string) : bool :=
  match v with
  | Some s => String.eqb s lit
  | None => false
  end.

(** [v || ""] for a string-or-undefined value. *)
Definition or_empty (v : option string) : string :=
  if truthy v then default "" v else "".

(** The variable is set, to whatever value. *)
Definition is_set (env : gmap string string) (name : string) : Prop :=
  is_Some (read env name).

(** [process.env.NODE_ENV === "production"] *)
Definition production (env : gmap string string) : bool :=
  strict_eq (read env "NODE_ENV") "production".

End Env.

(** ** [String.prototype.replace] with a string pattern *)

Module Str.

(** [s.startsWith(p)] *)
Fixpoint startsWith (p s : string) : bool :=
  match p, s with
  | EmptyString, _ => true
  | String a p', String b s' => if Ascii.eqb a b then startsWith p' s' else false
  | String _ _, EmptyString => false
  end.

(** [s.slice(n)] *)
Fixpoint slice (n : nat) (s : string) : string :=
  match n, s with
  | O, _ => s
  | S n', String _ s' => slice n' s'
  | S _, EmptyString => EmptyString
  end.

(** [s.replace(pat, rep)] where [pat] is a string and [rep] holds no
    [$] pattern: the leftmost occurrence of [pat] is replaced, the rest
    of the string is copied. *)
Fixpoint replace (pat rep s : string) : string :=
  if startsWith pat s then rep +:+ slice (String.length pat) s
  else match s with
       | EmptyString => EmptyString
       | String c s' => String c (replace pat rep s')
       end.

(** [s.endsWith(p)] *)
Definition endsWith (p s : string) : bool :=
  startsWith p (slice (String.length s - String.length p) s)
  && (String.length p <=? String.length s)%nat.

(** [pat] occurs in [s] at offset [String.length pre]. *)
Definition occurs (pat s pre post : string) : Prop :=
  s = pre +:+ pat +:+ post.

End Str.

(** ** Results, errors and the world the file runs in *)

Inductive error : Type :=
| ENOENT (p : list string)      (* no such file or directory *)
| EISDIR (p : list string)      (* illegal operation on a directory *)
| ENOTDIR (p : list string)     (* a path component is not a directory *)
| EEXIST (p : list string)      (* file already exists *)
| TypeError (msg : string)
| TemplateError (msg : string).

Inductive result (A : Type) : Type :=
| Return (a : A)
| Throw (e : error).
Arguments Return {A} a.
Arguments Throw {A} e.

Inductive node : Type :=
| Dir
| File (data : string).

#[global] Instance node_eq_dec : EqDecision node.
Proof. solve_decision. Defined.

(** The part of the outside world [createHTTPSConfig] touches: the files
    below [__dirname], and how many key pairs the generator has handed
    out (each call of [selfsigned.generate] draws a fresh one). *)
Record world : Type := World {
  fs : gmap (list string) node;
  entropy : nat
}.

Definition M (A : Type) : Type := world -> result A * world.

Definition ret {A : Type} (a : A) : M A := fun w => (Return a, w).

Definition bind {A B : Type} (m : M A) (k : A -> M B) : M B :=
  fun w =>
    match m w with
    | (Return a, w') => k a w'
    | (Throw e, w') => (Throw e, w')
    end.

Notation "'let*' x := m 'in' k" := (bind m (fun x => k))
  (at level 10, x name, m at level 100, k at level 200, only parsing).
Notation "'run' m 'in' k" := (bind m (fun _ => k))
  (at level 10, m at level 100, k at level 200, only parsing).

(** ** The [fs] module *)

Module Fs.

Definition parent (p : list string) : list string := removelast p.

(** What is at [p]; [__dirname] itself is a directory. *)
Definition stat (f : gmap (list string) node) (p : list string) : option node :=
  match p with
  | [] => Some Dir
  | _ => f !! p
  end.

(** The failure of an operation that needs the directory holding [p]. *)
Definition in_parent {A : Type} (f : gmap (list string) node) (p : list string)
    (ok : result A * gmap (list string) node) : result A * gmap (list string) node :=
  match stat f (parent p) with
  | Some Dir => ok
  | Some (File _) => (Throw (ENOTDIR p), f)
  | None => (Throw (ENOENT p), f)
  end.

Definition lift {A : Type} (op : gmap (list string) node -> result A * gmap (list string) node) : M A :=
  fun w => let (r, f') := op (fs w) in (r, World f' (entropy w)).

(** [fs.existsSync(p)]: never throws. *)
Definition existsSync (p : list string) : M bool :=
  lift (fun f => (Return (bool_decide (is_Some (stat f p))), f)).

(** [fs.readFileSync(p)] *)
Definition readFileSync (p : list string) : M string :=
  lift (fun f =>
    match stat f p with
    | Some (File data) => (Return data, f)
    | Some Dir => (Throw (EISDIR p), f)
    | None => in_parent f p (Throw (ENOENT p), f)
    end).

(** [fs.mkdirSync(p)] *)
Definition mkdirSync (p : list string) : M unit :=
  lift (fun f =>
    match stat f p with
    | Some _ => (Throw (EEXIST p), f)
    | None => in_parent f p (Return tt, <[p := Dir]> f)
    end).

(** [fs.writeFileSync(p, data)]: creates or overwrites the file. *)
Definition writeFileSync (p : list string) (data : string) : M unit :=
  lift (fun f =>
    match stat f p with
    | Some Dir => (Throw (EISDIR p), f)
    | _ => in_parent f p (Return tt, <[p := File data]> f)
    end).

(** Every entry lies in a directory. *)
Definition tree_shaped (f : gmap (list string) node) : Prop :=
  map_Forall (fun p _ => stat f (parent p) = Some Dir) f.

End Fs.

(** ** The [selfsigned] package *)

Module Selfsigned.

Record pems : Type := Pems {
  private : string;
  public : string;
  cert : string
}.

End Selfsigned.

(** ** Values of [devServer.https] *)

(** [https_pair] records the contents of [key] and [cert].  The program
    holds them as strings when it has just generated them and as Buffers
    when it has read them back from disk; that representation is not
    recorded here, so no statement below compares the value of one call
    with the value of another. *)
Inductive https_config : Type :=
| https_false                              (* false *)
| https_pair (key : string) (cert : string).   (* { key, cert } *)

(** ** The express application handed to [devServer.before] *)

Inductive method : Type := GET | HEAD | POST | PUT | DELETE | OPTIONS | PATCH.

(** [req.method]: node's parser reports the verb in upper case. *)
Definition method_name (m : method) : string :=
  match m with
  | GET => "GET" | HEAD => "HEAD" | POST => "POST" | PUT => "PUT"
  | DELETE => "DELETE" | OPTIONS => "OPTIONS" | PATCH => "PATCH"
  end.

Definition method_eqb (a b : method) : bool :=
  String.eqb (method_name a) (method_name b).

Record request : Type := Request {
  req_method : method;
  req_url : string
}.

(** A response under construction: the header lines appended so far and
    the body once it has been sent. *)
Record response : Type := Response {
  headers : list (string * string);
  body : option string
}.

(** What a handler did: ended the response, or called [next()]. *)
Inductive step : Type :=
| Sent (res : response)
| Next (res : response).

(** A handler reads the clock ([new Date()]), the request and the
    response. *)
Definition handler : Type := Z -> request -> response -> step.

Record route : Type := Route {
  verb : method;
  pattern : string;
  action : handler
}.

Module Express.

(** [res.append(field, value)] *)
Definition append (field value : string) (res : response) : response :=
  Response (headers res ++ [(field, value)]) (body res).

(** [res.send(body)] *)
Definition send (b : string) (res : response) : response :=
  Response (headers res) (Some b).

(** [app.head(pattern, action)]: a route for HEAD requests only. *)
Definition head (pat : string) (h : handler) (app : list route) : list route :=
  app ++ [Route HEAD pat h].

(** The pattern ["*"] matches every url. *)
Definition matches (pat url : string) : bool :=
  String.eqb pat "*" || String.eqb pat url.

(** Whether a route registered for verb [v] takes a request with verb
    [m]: a route takes its own verb, and a GET route also takes HEAD
    requests (express sends a HEAD request to a route that has no HEAD
    handler as if it were GET). *)
Definition handles (v m : method) : bool :=
  method_eqb v m || (method_eqb m HEAD && method_eqb v GET).

(** The router: the routes are tried in order, a route that does not take
    the request's verb or whose pattern does not match is skipped. *)
Fixpoint dispatch (app : list route) (now : Z) (req : request) (res : response) : step :=
  match app with
  | [] => Next res
  | r :: app' =>
      if handles (verb r) (req_method req) && matches (pattern r) (req_url req)
      then match action r now req res with
           | Sent res' => Sent res'
           | Next res' => dispatch app' now req res'
           end
      else dispatch app' now req res
  end.

End Express.

(** ** The shape of the configuration object *)

Module Html.

(** The options of one [HTMLWebpackPlugin], as the file writes them
    ([inject] is [None] where the literal has no such property).  The
    defaults the constructor merges in are the same for every instance
    and are left out. *)
Record options : Type := Options {
  filename : string;
  template : list string;
  chunks : list string;
  inject : option string
}.

(** The argument of the [html-webpack-plugin-before-html-processing]
    event. *)
Record data : Type := Data {
  html : string;
  assets : jsval;
  plugin : options;
  outputName : string
}.

End Html.

Module Lodash.

(** The options given to [_.template]: the variables exposed to the
    template, each a string or [undefined]. *)
Record options : Type := Options {
  imports : list (string * option string)
}.

End Lodash.

Inductive plugin : Type :=
| HTMLWebpackPlugin (options : Html.options)
| ExtractTextPlugin (filename : string) (options : jsval)
| LodashTemplatePlugin (options : Lodash.options)
| DefinePlugin (definitions : list (string * jsval)).

Module Output.

Record t : Type := Make {
  path : list string;
  filename : string;
  publicPath : string
}.

End Output.

Module DevServer.

Record t : Type := Make {
  open : bool;
  https : https_config;
  host : string;
  useLocalIp : bool;
  port : Z;
  before : list route -> list route
}.

End DevServer.

Module Config.

Record t : Type := Make {
  entry : list (string * list string);
  output : Output.t;
  mode : string;
  devtool : string;
  devServer : DevServer.t;
  assetFilter : string -> bool;        (* performance.assetFilter *)
  rules : list jsval;                  (* module.rules *)
  plugins : list plugin
}.

End Config.

(** What [module.exports()] returns: one configuration or an array. *)
Inductive exported : Type :=
| Single (c : Config.t)
| Multi (cs : list Config.t).

(** ** Concrete environments, worlds and package behaviours

    Used to run the definitions on examples. *)

Module Sample.

Fixpoint tally (n : nat) : string :=
  match n with
  | O => ""
  | S n' => "I" +:+ tally n'
  end.

(** A generator whose [n]-th draw is recognisable. *)
Definition generate (attrs opts : jsval) (n : nat) : Selfsigned.pems :=
  Selfsigned.Pems ("PRIVATE" +:+ tally n) ("PUBLIC" +:+ tally n) ("CERT" +:+ tally n).

(** A template engine that rejects the empty source and otherwise
    prefixes the value of [NODE_ENV]. *)
Definition template (source : string) (options : Lodash.options) : result string :=
  if String.eqb source "" then Throw (TemplateError "empty")
  else Return (default "undefined" (default None (assoc "NODE_ENV" (Lodash.imports options)))
               +:+ ":" +:+ source).

Definition toGMTString (now : Z) : string :=
  if (now =? 0)%Z then "Thu, 01 Jan 1970 00:00:00 GMT" else "Sat, 01 Jan 2000 00:00:00 GMT".

Definition development : gmap string string :=
  {[ "NODE_ENV" := "development" ]}.

Definition production : gmap string string :=
  {[ "NODE_ENV" := "production" ]}.

(** Both smoke-test variables carry a value. *)
Definition smoke : gmap string string :=
  <[ "GENERATE_SMOKE_TESTS" := "true" ]>
    {[ "BASE_ASSETS_PATH" := "https://assets.example.com/hubs/" ]}.

(** Both smoke-test variables are set, the trigger to the empty string
    (a line [GENERATE_SMOKE_TESTS=] in [.env]). *)
Definition smoke_blank : gmap string string :=
  <[ "GENERATE_SMOKE_TESTS" := "" ]>
    {[ "BASE_ASSETS_PATH" := "https://assets.example.com/hubs/" ]}.

(** Smoke build with a path that names no scheme. *)
Definition smoke_relative : gmap string string :=
  <[ "GENERATE_SMOKE_TESTS" := "true" ]> {[ "BASE_ASSETS_PATH" := "/assets/" ]}.

(** A checkout that never ran the dev server. *)
Definition fresh : world := World ∅ 0.

(** [certs/] holds a stored pair. *)
Definition provisioned : world :=
  World (<[ ["certs"] := Dir ]>
         (<[ ["certs"; "key.pem"] := File "K" ]>
          {[ ["certs"; "cert.pem"] := File "C" ]})) 4.

(** A checkout with its sources and no [certs/]. *)
Definition sources : world := World {[ ["src"] := Dir ]} 0.

(** [certs/] exists and is empty. *)
Definition emptied : world := World {[ ["certs"] := Dir ]} 4.

End Sample.

Section Webpack.

(** [selfsigned.generate(attributes, options)]; the third argument is
    the draw. *)
Variable selfsigned_generate : jsval -> jsval -> nat -> Selfsigned.pems.

Definition generate (attrs opts : jsval) : M Selfsigned.pems :=
  fun w => (Return (selfsigned_generate attrs opts (entropy w)),
            World (fs w) (S (entropy w))).

Definition cert_attrs : jsval :=
  JArr [JObj [("name", JStr "commonName"); ("value", JStr "localhost")]].

Definition cert_options : jsval :=
  JObj [("days", JNum 365);
        ("algorithm", JStr "sha256");
        ("extensions",
         JArr [JObj [("name", JStr "subjectAltName");
                     ("altNames",
                      JArr [JObj [("type", JNum 2); ("value", JStr "localhost")]])]])].

Definition createHTTPSConfig (env : gmap string string) : M https_config :=
  if Env.production env then ret https_false
  else
    let* found := Fs.existsSync ["certs"] in
    if (found : bool) then
      let* key := Fs.readFileSync ["certs"; "key.pem"] in
      let* cert := Fs.readFileSync ["certs"; "cert.pem"] in
      ret (https_pair key cert)
    else
      let* pems := generate cert_attrs cert_options in
      run Fs.mkdirSync ["certs"] in
      run Fs.writeFileSync ["certs"; "cert.pem"] (Selfsigned.cert pems) in
      run Fs.writeFileSync ["certs"; "key.pem"] (Selfsigned.private pems) in
      ret (https_pair (Selfsigned.private pems) (Selfsigned.cert pems)).

(** [_.template(source, options)()]: compiling or running the template
    can throw. *)
Variable lodash_template : string -> Lodash.options -> result string.

(** [(new Date(now)).toGMTString()] *)
Variable toGMTString : Z -> string.

(** *** [LodashTemplatePlugin] *)

(** The [async data => ...] callback; [Return] is the fulfilled promise
    and [Throw] the rejected one.  The object returned is the argument
    itself with its [html] property reassigned. *)
Definition LodashTemplatePlugin_hook (options : Lodash.options)
    (data : Html.data) : result Html.data :=
  match lodash_template (Html.html data) options with
  | Return text =>
      Return (Html.Data text (Html.assets data) (Html.plugin data) (Html.outputName data))
  | Throw e => Throw e
  end.

(** [apply(compiler)]: for the compiler event ["compilation"], the
    hooks registered on every compilation, by event name. *)
Definition LodashTemplatePlugin_apply (options : Lodash.options)
    : list (string * list (string * (Html.data -> result Html.data))) :=
  [("compilation",
    [("html-webpack-plugin-before-html-processing", LodashTemplatePlugin_hook options)])].

(** *** [config] *)

(** The handler given to [app.head("*", ...)]. *)
Definition head_handler : handler :=
  fun now req res =>
    if String.eqb (method_name (req_method req)) "HEAD"
    then Sent (Express.send "" (Express.append "Date" (toGMTString now) res))
    else Next res.

Definition before (app : list route) : list route :=
  Express.head "*" head_handler app.

(** [!/\.(map|png|jpg|gif|glb)$/.test(assetFilename)] *)
Definition assetFilter (assetFilename : string) : bool :=
  negb (existsb (fun ext => Str.endsWith ("." +:+ ext) assetFilename)
                ["map"; "png"; "jpg"; "gif"; "glb"]).

Definition rules (env : gmap string string) : list jsval :=
  [ JObj [("test", JRegExp "\.html$");
          ("loader", JStr "html-loader");
          ("options",
           JObj [("attrs",
                  JArr [JStr "img:src";
                        JStr "a-asset-item:src";
                        JStr "a-progressive-asset:src";
                        JStr "a-progressive-asset:high-src";
                        JStr "a-progressive-asset:low-src";
                        JStr "audio:src"]);
                 ("interpolate", JStr "require")])];
    JObj [("test", JRegExp "\.js$");
          ("include", JArr [JPath ["src"]]);
          ("exclude", JArr [JPath ["node_modules"]]);
          ("loader", JStr "babel-loader");
          ("query",
           JObj [("plugins",
                  JArr [JStr "transform-class-properties";
                        JStr "transform-object-rest-spread"])])];
    JObj [("test", JRegExp "\.scss$");
          ("loader",
           JExtract
             (JObj [("fallback", JStr "style-loader");
                    ("use",
                     JArr [JObj [("loader", JStr "css-loader");
                                 ("options",
                                  JObj [("minimize", JBool (Env.production env))])];
                           JStr "sass-loader"])]))];
    JObj [("test", JRegExp "\.css$");
          ("use",
           JExtract
             (JObj [("fallback", JStr "style-loader");
                    ("use",
                     JObj [("loader", JStr "css-loader");
                           ("options",
                            JObj [("minimize", JBool (Env.production env))])])]))];
    JObj [("test", JRegExp "\.(png|jpg|gif|glb|ogg|woff2)$");
          ("use",
           JObj [("loader", JStr "file-loader");
                 ("options",
                  JObj [("name", JStr "[path][name]-[hash].[ext]");
                        ("context", JPath ["src"])])])] ].

Definition plugins (env : gmap string string) : list plugin :=
  [ HTMLWebpackPlugin
      (Html.Options "index.html" ["src"; "lobby.html"] ["lobby"] None);
    HTMLWebpackPlugin
      (Html.Options "room.html" ["src"; "room.html"] ["room"] (Some "head"));
    HTMLWebpackPlugin
      (Html.Options "onboarding.html" ["src"; "onboarding.html"] ["onboarding"] None);
    ExtractTextPlugin "[name]-[contenthash].css"
      (JObj [("disable", JBool (negb (Env.production env)))]);
    LodashTemplatePlugin
      (Lodash.Options
         [("NODE_ENV", Env.read env "NODE_ENV");
          ("ORIGIN_TRIAL_EXPIRES", Env.read env "ORIGIN_TRIAL_EXPIRES");
          ("ORIGIN_TRIAL_TOKEN", Env.read env "ORIGIN_TRIAL_TOKEN")]);
    DefinePlugin
      [("process.env",
        JStringify
          (JObj [("NODE_ENV", of_env (Env.read env "NODE_ENV"));
                 ("JANUS_SERVER", of_env (Env.read env "JANUS_SERVER"))]))] ].

(** The object literal [config]; [https] is the value
    [createHTTPSConfig()] returned while the literal was evaluated. *)
Definition config (env : gmap string string) (https : https_config) : Config.t :=
  Config.Make
    [("lobby", ["src"; "lobby.js"]);
     ("room", ["src"; "room.js"]);
     ("onboarding", ["src"; "onboarding.js"])]
    (Output.Make ["public"] "[name]-[chunkhash].js"
                 (Env.or_empty (Env.read env "BASE_ASSETS_PATH")))
    "development"
    (if Env.production env then "source-map" else "inline-source-map")
    (DevServer.Make true https "0.0.0.0" true 8080 before)
    assetFilter
    (rules env)
    (plugins env).

(** Loading the module: the only effect is the call of
    [createHTTPSConfig] inside the literal. *)
Definition load (env : gmap string string) : M Config.t :=
  let* https := createHTTPSConfig env in
  ret (config env https).

(** *** [module.exports] *)

(** The callback of [config.plugins.map]. *)
Definition smoke_plugin (p : plugin) : plugin :=
  match p with
  | HTMLWebpackPlugin options =>
      HTMLWebpackPlugin
        (Html.Options ("smoke-" +:+ Html.filename options)
                      (Html.template options)
                      (Html.chunks options)
                      (Html.inject options))
  | _ => p
  end.

(** [Object.assign({}, config, { output: ..., plugins: ... })] with
    [base] the value of [process.env.BASE_ASSETS_PATH]. *)
Definition smokeConfig (base : string) (config : Config.t) : Config.t :=
  Config.Make
    (Config.entry config)
    (Output.Make (Output.path (Config.output config))
                 (Output.filename (Config.output config))
                 (Str.replace "://" "://smoke-" base))
    (Config.mode config)
    (Config.devtool config)
    (Config.devServer config)
    (Config.assetFilter config)
    (Config.rules config)
    (map smoke_plugin (Config.plugins config)).

Definition module_exports (env : gmap string string) (config : Config.t)
    : result exported :=
  if Env.truthy (Env.read env "GENERATE_SMOKE_TESTS")
     && Env.truthy (Env.read env "BASE_ASSETS_PATH")
  then
    match Env.read env "BASE_ASSETS_PATH" with
    | Some base => Return (Multi [config; smokeConfig base config])
    | None => Throw (TypeError "Cannot read property 'replace' of undefined")
    end
  else Return (Single config).

(** What webpack obtains from the file: load it, call the export. *)
Definition webpack_config (env : gmap string string) : M exported :=
  let* config := load env in
  fun w => (module_exports env config, w).

(** *** Vocabulary of the statements below *)

(** The options of the [HTMLWebpackPlugin] instances of a plugin list,
    in order. *)
Definition html_outputs (ps : list plugin) : list Html.options :=
  omap (fun p => match p with HTMLWebpackPlugin o => Some o | _ => None end) ps.

Definition is_html (p : plugin) : bool :=
  match p with HTMLWebpackPlugin _ => true | _ => false end.

(** The options of the [LodashTemplatePlugin] instances. *)
Definition template_plugins (ps : list plugin) : list Lodash.options :=
  omap (fun p => match p with LodashTemplatePlugin o => Some o | _ => None end) ps.

(** [q] is what the smoke build has in place of [p]. *)
Inductive smoke_of : plugin -> plugin -> Prop :=
| smoke_of_html (o o' : Html.options) :
    Html.filename o' = "smoke-" +:+ Html.filename o ->
    Html.template o' = Html.template o ->
    Html.chunks o' = Html.chunks o ->
    Html.inject o' = Html.inject o ->
    smoke_of (HTMLWebpackPlugin o) (HTMLWebpackPlugin o')
| smoke_of_other (p : plugin) :
    is_html p = false ->
    smoke_of p p.

(** The rule whose [test] is the regular expression [source]. *)
Definition rule_for (source : string) (rs : list jsval) : jsval :=
  default JUndefined
    (List.find (fun r => match get "test" r with
                         | JRegExp s => String.eqb s source
                         | _ => false
                         end) rs).

(** The argument of an [ExtractTextPlugin.extract] call. *)
Definition extract_arg (v : jsval) : jsval :=
  match v with
  | JExtract options => options
  | _ => JUndefined
  end.

(** [options.minimize] of the css-loader of the [.scss] rule and of the
    [.css] rule. *)
Definition scss_minimize (rs : list jsval) : jsval :=
  get "minimize"
    (get "options" (item 0 (get "use" (extract_arg (get "loader" (rule_for "\.scss$" rs)))))).

Definition css_minimize (rs : list jsval) : jsval :=
  get "minimize"
    (get "options" (get "use" (extract_arg (get "use" (rule_for "\.css$" rs))))).

(** [s] holds an occurrence of [pat] that starts before offset [n]. *)
Definition occurs_before (pat s : string) (n : nat) : Prop :=
  exists pre post, Str.occurs pat s pre post /\ (String.length pre < n)%nat.

Definition contains (pat s : string) : Prop :=
  exists pre post, Str.occurs pat s pre post.

(** The configurations webpack builds from what the file exports. *)
Definition exported_configs (e : exported) : list Config.t :=
  match e with
  | Single c => [c]
  | Multi cs => cs
  end.

(** The names of the HTML documents a plugin list emits. *)
Definition html_filenames (ps : list plugin) : list string :=
  map Html.filename (html_outputs ps).

(** The environment variables the file mentions. *)
Definition consulted : list string :=
  ["NODE_ENV"; "BASE_ASSETS_PATH"; "ORIGIN_TRIAL_EXPIRES"; "ORIGIN_TRIAL_TOKEN";
   "JANUS_SERVER"; "GENERATE_SMOKE_TESTS"].

(** The paths [createHTTPSConfig] names. *)
Definition cert_paths : list (list string) :=
  [["certs"]; ["certs"; "cert.pem"]; ["certs"; "key.pem"]].

(** *** Strings *)

Lemma startsWith_app (p t : string) : Str.startsWith p (p +:+ t) = true.
Proof.
  induction p as [|a p IH]; simpl; [reflexivity|].
  rewrite Ascii.eqb_refl. exact IH.
Qed.

Lemma startsWith_inv (p s : string) :
  Str.startsWith p s = true -> exists t, s = p +:+ t.
Proof.
  revert s. induction p as [|a p IH]; intros s H.
  - exists s. reflexivity.
  - destruct s as [|b s]; simpl in H; [discriminate|].
    destruct (Ascii.eqb_spec a b) as [->|]; [|discriminate].
    destruct (IH _ H) as [t ->]. exists t. reflexivity.
Qed.

Lemma slice_app (p t : string) : Str.slice (String.length p) (p +:+ t) = t.
Proof. induction p as [|a p IH]; simpl; [destruct t; reflexivity | exact IH]. Qed.

Lemma replace_unfold (pat rep s : string) :
  Str.replace pat rep s =
  if Str.startsWith pat s then rep +:+ Str.slice (String.length pat) s
  else match s with
       | EmptyString => EmptyString
       | String c s' => String c (Str.replace pat rep s')
       end.
Proof. destruct s; reflexivity. Qed.

(** Without an occurrence of the pattern, [replace] copies the string. *)
Lemma replace_absent (pat rep s : string) :
  ~ contains pat s -> Str.replace pat rep s = s.
Proof.
  induction s as [|c s IH]; intros Hno.
  - simpl. destruct (Str.startsWith pat "") eqn:E; [|reflexivity].
    exfalso. apply Hno. destruct (startsWith_inv _ _ E) as [t Ht].
    exists "", t. exact Ht.
  - simpl. destruct (Str.startsWith pat (String c s)) eqn:E.
    + exfalso. apply Hno. destruct (startsWith_inv _ _ E) as [t Ht].
      exists "", t. exact Ht.
    + f_equal. apply IH. intros (pre & post & Ho). apply Hno.
      exists (String c pre), post. unfold Str.occurs in *.
      change (String c s = String c (pre +:+ pat +:+ post)). f_equal. exact Ho.
Qed.

(** The leftmost occurrence is the one replaced; what follows it is
    copied, further occurrences included. *)
Lemma replace_leftmost (pat rep pre post : string) :
  ~ occurs_before pat (pre +:+ pat +:+ post) (String.length pre) ->
  Str.replace pat rep (pre +:+ pat +:+ post) = pre +:+ rep +:+ post.
Proof.
  induction pre as [|c pre IH]; intros Hmin.
  - change ("" +:+ pat +:+ post) with (pat +:+ post).
    rewrite replace_unfold, startsWith_app, slice_app. reflexivity.
  - change (String c pre +:+ pat +:+ post) with (String c (pre +:+ pat +:+ post)).
    rewrite replace_unfold.
    destruct (Str.startsWith pat (String c (pre +:+ pat +:+ post))) eqn:E.
    + exfalso. apply Hmin. destruct (startsWith_inv _ _ E) as [t Ht].
      exists "", t. split; [exact Ht | simpl; lia].
    + change (String c pre +:+ rep +:+ post) with (String c (pre +:+ rep +:+ post)).
      f_equal. apply IH. intros (pre' & post' & Ho & Hlt). apply Hmin.
      exists (String c pre'), post'. split.
      * unfold Str.occurs in *.
        change (String c (pre +:+ pat +:+ post) = String c (pre' +:+ pat +:+ post')).
        f_equal. exact Ho.
      * simpl. lia.
Qed.

(** *** The exported function *)

Lemma truthy_spec (v : option string) :
  Env.truthy v = true <-> exists s, v = Some s /\ s <> "".
Proof.
  destruct v as [s|]; simpl.
  - destruct (String.eqb_spec s "") as [->|Hne]; simpl; split.
    + discriminate.
    + intros (s' & [= <-] & Hs). congruence.
    + intros _. exists s. split; [reflexivity | exact Hne].
    + reflexivity.
  - split; [discriminate | intros (s & H & _); discriminate].
Qed.

Lemma or_empty_truthy (s : string) : Env.or_empty (Some s) = s.
Proof.
  unfold Env.or_empty. simpl.
  destruct (String.eqb_spec s "") as [->|]; reflexivity.
Qed.

Lemma module_exports_smoke (env : gmap string string) (c : Config.t) (base : string) :
  Env.truthy (Env.read env "GENERATE_SMOKE_TESTS") = true ->
  Env.read env "BASE_ASSETS_PATH" = Some base ->
  base <> "" ->
  module_exports env c = Return (Multi [c; smokeConfig base c]).
Proof.
  intros Hg Hb Hne. unfold module_exports. rewrite Hg, Hb. simpl.
  destruct (String.eqb_spec base "") as [->|_]; [congruence | reflexivity].
Qed.

Lemma module_exports_single (env : gmap string string) (c : Config.t) :
  Env.truthy (Env.read env "GENERATE_SMOKE_TESTS")
  && Env.truthy (Env.read env "BASE_ASSETS_PATH") = false ->
  module_exports env c = Return (Single c).
Proof. intros H. unfold module_exports. rewrite H. reflexivity. Qed.

Lemma smoke_plugins_related (ps : list plugin) :
  Forall2 smoke_of ps (map smoke_plugin ps).
Proof.
  induction ps as [|p ps IH]; constructor; [|exact IH].
  destruct p; simpl; first [by apply smoke_of_html | by apply smoke_of_other].
Qed.

(** C1, as amended.  Whenever GENERATE_SMOKE_TESTS and BASE_ASSETS_PATH
    both hold a non-empty value, the exported function returns the array
    of the normal configuration and a smoke configuration.  The two have
    the same entry points, mode, devtool, dev server, asset filter,
    module rules, output directory and output filename pattern; the
    public path of the smoke one is BASE_ASSETS_PATH after the replace;
    and plugin by plugin, an HTML plugin keeps its template, chunks and
    inject option and gets its filename prefixed with "smoke-", while
    every other plugin is the same. *)
Theorem smoke_variant_frame (env : gmap string string) (https : https_config) :
  Env.truthy (Env.read env "GENERATE_SMOKE_TESTS") = true ->
  Env.truthy (Env.read env "BASE_ASSETS_PATH") = true ->
  exists base smoke,
    Env.read env "BASE_ASSETS_PATH" = Some base /\
    module_exports env (config env https) = Return (Multi [config env https; smoke]) /\
    Config.entry smoke = Config.entry (config env https) /\
    Config.mode smoke = Config.mode (config env https) /\
    Config.devtool smoke = Config.devtool (config env https) /\
    Config.devServer smoke = Config.devServer (config env https) /\
    Config.assetFilter smoke = Config.assetFilter (config env https) /\
    Config.rules smoke = Config.rules (config env https) /\
    Output.path (Config.output smoke) = Output.path (Config.output (config env https)) /\
    Output.filename (Config.output smoke)
      = Output.filename (Config.output (config env https)) /\
    Output.publicPath (Config.output (config env https)) = base /\
    Output.publicPath (Config.output smoke) = Str.replace "://" "://smoke-" base /\
    Forall2 smoke_of (Config.plugins (config env https)) (Config.plugins smoke) /\
    map Html.filename (html_outputs (Config.plugins smoke))
      = map (fun f => "smoke-" +:+ f)
            (map Html.filename (html_outputs (Config.plugins (config env https)))).
Proof.
  intros Hg Hb.
  destruct (proj1 (truthy_spec _) Hb) as (base & Hbase & Hne).
  exists base, (smokeConfig base (config env https)).
  split; [exact Hbase|].
  split; [by apply module_exports_smoke|].
  repeat (split; [reflexivity|]).
  split; [cbn; rewrite Hbase; apply or_empty_truthy|].
  split; [reflexivity|].
  split; [apply smoke_plugins_related | reflexivity].
Qed.

(** C9.  The exported function returns an array of two configurations
    exactly when GENERATE_SMOKE_TESTS and BASE_ASSETS_PATH are both
    truthy; in every other environment it returns the base configuration
    alone; and the public path of the base configuration is the empty
    string when BASE_ASSETS_PATH is unset. *)
Theorem exports_array_iff_truthy (env : gmap string string) (https : https_config) :
  ((exists smoke,
      module_exports env (config env https) = Return (Multi [config env https; smoke]))
   <-> Env.truthy (Env.read env "GENERATE_SMOKE_TESTS") = true
       /\ Env.truthy (Env.read env "BASE_ASSETS_PATH") = true) /\
  (~ (Env.truthy (Env.read env "GENERATE_SMOKE_TESTS") = true
      /\ Env.truthy (Env.read env "BASE_ASSETS_PATH") = true) ->
   module_exports env (config env https) = Return (Single (config env https))) /\
  (Env.read env "BASE_ASSETS_PATH" = None ->
   Output.publicPath (Config.output (config env https)) = "").
Proof.
  split; [split|split].
  - intros [smoke H]. unfold module_exports in H.
    destruct (Env.truthy (Env.read env "GENERATE_SMOKE_TESTS")); [|discriminate].
    destruct (Env.truthy (Env.read env "BASE_ASSETS_PATH")); [|discriminate].
    split; reflexivity.
  - intros [Hg Hb]. destruct (proj1 (truthy_spec _) Hb) as (base & Hbase & Hne).
    exists (smokeConfig base (config env https)). by apply module_exports_smoke.
  - intros Hn. apply module_exports_single.
    destruct (Env.truthy (Env.read env "GENERATE_SMOKE_TESTS")); [|reflexivity].
    destruct (Env.truthy (Env.read env "BASE_ASSETS_PATH")); [|reflexivity].
    exfalso. apply Hn. split; reflexivity.
  - intros Hn. cbn. rewrite Hn. reflexivity.
Qed.

(** C10.  In a smoke build the public path of the smoke configuration is
    BASE_ASSETS_PATH with its leftmost "://" replaced by "://smoke-":
    what precedes that occurrence and what follows it, later occurrences
    included, is kept.  When BASE_ASSETS_PATH holds no "://" the smoke
    public path is the public path of the normal configuration. *)
Theorem smoke_publicPath_first_scheme (env : gmap string string)
    (https : https_config) (base : string) :
  Env.truthy (Env.read env "GENERATE_SMOKE_TESTS") = true ->
  Env.read env "BASE_ASSETS_PATH" = Some base ->
  base <> "" ->
  exists smoke,
    module_exports env (config env https) = Return (Multi [config env https; smoke]) /\
    (forall pre post,
        Str.occurs "://" base pre post ->
        ~ occurs_before "://" base (String.length pre) ->
        Output.publicPath (Config.output smoke) = pre +:+ "://smoke-" +:+ post) /\
    (~ contains "://" base ->
     Output.publicPath (Config.output smoke)
     = Output.publicPath (Config.output (config env https))).
Proof.
  intros Hg Hb Hne. exists (smokeConfig base (config env https)).
  split; [by apply module_exports_smoke|]. split.
  - intros pre post Ho Hmin. cbn [smokeConfig Config.output Output.publicPath].
    unfold Str.occurs in Ho. subst base. by apply replace_leftmost.
  - intros Hno. cbn [smokeConfig config Config.output Output.publicPath].
    rewrite Hb, or_empty_truthy. by apply replace_absent.
Qed.

(** *** [createHTTPSConfig] *)

Lemma production_spec (env : gmap string string) :
  Env.production env = true <-> env !! "NODE_ENV" = Some "production".
Proof.
  unfold Env.production, Env.strict_eq, Env.read.
  destruct (env !! "NODE_ENV") as [s|]; [|split; discriminate].
  destruct (String.eqb_spec s "production") as [->|Hne]; split; congruence.
Qed.

Lemma bind_run {A B : Type} (m : M A) (k : A -> M B) (w : world) :
  bind m k w = match m w with
               | (Return a, w') => k a w'
               | (Throw e, w') => (Throw e, w')
               end.
Proof. reflexivity. Qed.

Lemma existsSync_run (p : list string) (f : gmap (list string) node) (n : nat) :
  Fs.existsSync p (World f n) = (Return (bool_decide (is_Some (Fs.stat f p))), World f n).
Proof. reflexivity. Qed.

Lemma readFileSync_file (p : list string) (f : gmap (list string) node) (n : nat)
    (data : string) :
  Fs.stat f p = Some (File data) ->
  Fs.readFileSync p (World f n) = (Return data, World f n).
Proof. intros H. unfold Fs.readFileSync, Fs.lift. cbn [fs entropy]. by rewrite H. Qed.

Lemma readFileSync_missing (p : list string) (f : gmap (list string) node) (n : nat) :
  Fs.stat f p = None ->
  exists e, Fs.readFileSync p (World f n) = (Throw e, World f n).
Proof.
  intros H. unfold Fs.readFileSync, Fs.lift, Fs.in_parent. cbn [fs entropy]. rewrite H.
  destruct (Fs.stat f (Fs.parent p)) as [[|d]|]; eauto.
Qed.

Lemma readFileSync_frame (p : list string) (w : world) :
  snd (Fs.readFileSync p w) = w.
Proof.
  destruct w as [f n]. unfold Fs.readFileSync, Fs.lift, Fs.in_parent. cbn [fs entropy].
  destruct (Fs.stat f p) as [[|d]|]; [reflexivity..|].
  destruct (Fs.stat f (Fs.parent p)) as [[|d]|]; reflexivity.
Qed.

Lemma mkdirSync_fresh (p : list string) (f : gmap (list string) node) (n : nat) :
  Fs.stat f p = None ->
  Fs.stat f (Fs.parent p) = Some Dir ->
  Fs.mkdirSync p (World f n) = (Return tt, World (<[p := Dir]> f) n).
Proof.
  intros H Hp. unfold Fs.mkdirSync, Fs.lift, Fs.in_parent. cbn [fs entropy].
  by rewrite H, Hp.
Qed.

Lemma writeFileSync_ok (p : list string) (data : string)
    (f : gmap (list string) node) (n : nat) :
  Fs.stat f p <> Some Dir ->
  Fs.stat f (Fs.parent p) = Some Dir ->
  Fs.writeFileSync p data (World f n) = (Return tt, World (<[p := File data]> f) n).
Proof.
  intros H Hp. unfold Fs.writeFileSync, Fs.lift, Fs.in_parent. cbn [fs entropy].
  rewrite Hp. destruct (Fs.stat f p) as [[|d]|]; [congruence | reflexivity..].
Qed.

Lemma writeFileSync_isdir (p : list string) (data : string)
    (f : gmap (list string) node) (n : nat) :
  Fs.stat f p = Some Dir ->
  Fs.writeFileSync p data (World f n) = (Throw (EISDIR p), World f n).
Proof.
  intros H. unfold Fs.writeFileSync, Fs.lift. cbn [fs entropy]. by rewrite H.
Qed.

Lemma createHTTPSConfig_production (env : gmap string string) (w : world) :
  Env.production env = true ->
  createHTTPSConfig env w = (Return https_false, w).
Proof. intros Hp. unfold createHTTPSConfig. rewrite Hp. reflexivity. Qed.

(** With [certs/] in place the stored pair is read and nothing else
    happens. *)
Lemma createHTTPSConfig_cached (env : gmap string string) (w : world) (k c : string) :
  Env.production env = false ->
  is_Some (fs w !! ["certs"]) ->
  fs w !! ["certs"; "key.pem"] = Some (File k) ->
  fs w !! ["certs"; "cert.pem"] = Some (File c) ->
  createHTTPSConfig env w = (Return (https_pair k c), w).
Proof.
  intros Hp Hd Hk Hc. destruct w as [f n]. cbn [fs] in Hd, Hk, Hc.
  unfold createHTTPSConfig. rewrite Hp, bind_run, existsSync_run.
  rewrite (bool_decide_eq_true_2 _ Hd).
  rewrite bind_run, (readFileSync_file ["certs"; "key.pem"] f n k Hk).
  rewrite bind_run, (readFileSync_file ["certs"; "cert.pem"] f n c Hc).
  reflexivity.
Qed.

(** With [certs/] in place the call changes nothing, whatever it
    returns or throws: no draw from the generator, no write. *)
Lemma createHTTPSConfig_present_frame (env : gmap string string) (w : world) :
  is_Some (fs w !! ["certs"]) ->
  snd (createHTTPSConfig env w) = w.
Proof.
  intros Hd. unfold createHTTPSConfig.
  destruct (Env.production env); [reflexivity|].
  destruct w as [f n]. cbn [fs] in Hd.
  rewrite bind_run, existsSync_run, (bool_decide_eq_true_2 _ Hd), bind_run.
  pose proof (readFileSync_frame ["certs"; "key.pem"] (World f n)) as H1.
  destruct (Fs.readFileSync ["certs"; "key.pem"] (World f n)) as [[k|e] w1];
    cbn [snd] in H1; subst w1; [|reflexivity].
  rewrite bind_run.
  pose proof (readFileSync_frame ["certs"; "cert.pem"] (World f n)) as H2.
  destruct (Fs.readFileSync ["certs"; "cert.pem"] (World f n)) as [[c|e] w2];
    cbn [snd] in H2; subst w2; reflexivity.
Qed.

(** Without [certs/] a pair is drawn, the directory is made and both
    files are written. *)
Lemma createHTTPSConfig_fresh (env : gmap string string) (w : world) :
  Env.production env = false ->
  fs w !! ["certs"] = None ->
  fs w !! ["certs"; "cert.pem"] <> Some Dir ->
  fs w !! ["certs"; "key.pem"] <> Some Dir ->
  let pems := selfsigned_generate cert_attrs cert_options (entropy w) in
  createHTTPSConfig env w
  = (Return (https_pair (Selfsigned.private pems) (Selfsigned.cert pems)),
     World (<[ ["certs"; "key.pem"] := File (Selfsigned.private pems) ]>
            (<[ ["certs"; "cert.pem"] := File (Selfsigned.cert pems) ]>
             (<[ ["certs"] := Dir ]> (fs w))))
           (S (entropy w))).
Proof.
  intros Hp Hd Hc Hk pems. destruct w as [f n]. cbn [fs entropy] in *.
  unfold createHTTPSConfig. rewrite Hp, bind_run, existsSync_run.
  rewrite bool_decide_eq_false_2
    by (cbn [Fs.stat]; rewrite Hd; intros [? ?]; discriminate).
  rewrite bind_run. unfold generate at 1. cbn [fs entropy]. fold pems.
  rewrite bind_run, mkdirSync_fresh by (try exact Hd; reflexivity).
  rewrite bind_run, writeFileSync_ok; cycle 1.
  { cbn [Fs.stat]. by rewrite lookup_insert_ne. }
  { cbn. by rewrite lookup_insert_eq. }
  rewrite bind_run, writeFileSync_ok; cycle 1.
  { cbn [Fs.stat]. by rewrite !lookup_insert_ne. }
  { cbn. rewrite lookup_insert_ne by done. by rewrite lookup_insert_eq. }
  reflexivity.
Qed.

(** In a tree-shaped file system nothing lies below a missing
    directory. *)
Lemma tree_shaped_below (f : gmap (list string) node) (d name : string) :
  Fs.tree_shaped f -> f !! [d] = None -> f !! [d; name] = None.
Proof.
  intros Ht Hd. destruct (f !! [d; name]) as [x|] eqn:E; [|reflexivity].
  specialize (Ht _ _ E). cbn in Ht. congruence.
Qed.

Lemma readFileSync_unreadable (p : list string) (f : gmap (list string) node) (n : nat) :
  (forall data, Fs.stat f p <> Some (File data)) ->
  exists e, Fs.readFileSync p (World f n) = (Throw e, World f n).
Proof.
  intros H. destruct (Fs.stat f p) as [[|d]|] eqn:E.
  - unfold Fs.readFileSync, Fs.lift. cbn [fs entropy]. rewrite E. eauto.
  - exfalso. by apply (H d).
  - by apply readFileSync_missing.
Qed.

(** With [certs/] in place and one of the two files unreadable, the
    call throws. *)
Lemma createHTTPSConfig_unreadable (env : gmap string string) (w : world) :
  Env.production env = false ->
  is_Some (fs w !! ["certs"]) ->
  (forall k, fs w !! ["certs"; "key.pem"] <> Some (File k))
  \/ (forall c, fs w !! ["certs"; "cert.pem"] <> Some (File c)) ->
  exists e, createHTTPSConfig env w = (Throw e, w).
Proof.
  intros Hp Hd Hbad. destruct w as [f n]. cbn [fs] in Hd, Hbad.
  unfold createHTTPSConfig.
  rewrite Hp, bind_run, existsSync_run, (bool_decide_eq_true_2 _ Hd), bind_run.
  destruct (f !! ["certs"; "key.pem"]) as [[|k]|] eqn:Ek.
  - destruct (readFileSync_unreadable ["certs"; "key.pem"] f n) as [e ->]; [|eauto].
    cbn [Fs.stat]. rewrite Ek. discriminate.
  - rewrite (readFileSync_file ["certs"; "key.pem"] f n k Ek), bind_run.
    destruct Hbad as [Hbad|Hbad]; [exfalso; by apply (Hbad k)|].
    destruct (readFileSync_unreadable ["certs"; "cert.pem"] f n) as [e ->]; eauto.
  - destruct (readFileSync_unreadable ["certs"; "key.pem"] f n) as [e ->]; [|eauto].
    cbn [Fs.stat]. rewrite Ek. discriminate.
Qed.

(** Outside production the call never returns [false]. *)
Lemma createHTTPSConfig_development (env : gmap string string) (w : world) :
  Env.production env = false ->
  fst (createHTTPSConfig env w) <> Return https_false.
Proof.
  intros Hp. destruct w as [f n].
  unfold createHTTPSConfig, bind, ret, generate, Fs.existsSync, Fs.readFileSync,
    Fs.mkdirSync, Fs.writeFileSync, Fs.lift, Fs.in_parent.
  rewrite Hp. cbn [fs entropy]. repeat case_match; simplify_eq; cbn; congruence.
Qed.

(** A directory squatting on one of the two file names makes the first
    provisioning throw. *)
Lemma createHTTPSConfig_squatted (env : gmap string string) (w : world) :
  Env.production env = false ->
  fs w !! ["certs"] = None ->
  fs w !! ["certs"; "cert.pem"] = Some Dir \/ fs w !! ["certs"; "key.pem"] = Some Dir ->
  exists e w', createHTTPSConfig env w = (Throw e, w').
Proof.
  intros Hp Hd Hbad. destruct w as [f n]. cbn [fs] in Hd, Hbad.
  unfold createHTTPSConfig. rewrite Hp, bind_run, existsSync_run.
  rewrite bool_decide_eq_false_2
    by (cbn [Fs.stat]; rewrite Hd; intros [? ?]; discriminate).
  rewrite bind_run. unfold generate at 1. cbn [fs entropy].
  rewrite bind_run, mkdirSync_fresh by (try exact Hd; reflexivity).
  rewrite bind_run.
  destruct (decide (f !! ["certs"; "cert.pem"] = Some Dir)) as [Hc|Hc].
  - rewrite writeFileSync_isdir by (cbn [Fs.stat]; by rewrite lookup_insert_ne). eauto.
  - destruct Hbad as [?|Hk]; [done|].
    rewrite writeFileSync_ok; cycle 1.
    { cbn [Fs.stat]. by rewrite lookup_insert_ne. }
    { cbn. by rewrite lookup_insert_eq. }
    rewrite bind_run.
    rewrite writeFileSync_isdir by (cbn [Fs.stat]; by rewrite !lookup_insert_ne). eauto.
Qed.

(** Whenever a call returns, the next call returns too and changes
    nothing. *)
Lemma createHTTPSConfig_repeatable (env : gmap string string) (w w' : world)
    (r : https_config) :
  createHTTPSConfig env w = (Return r, w') ->
  exists r', createHTTPSConfig env w' = (Return r', w').
Proof.
  intros H. destruct (Env.production env) eqn:Hp.
  - rewrite createHTTPSConfig_production in H by done. injection H as <- <-.
    exists https_false. by apply createHTTPSConfig_production.
  - destruct (fs w !! ["certs"]) as [d|] eqn:Hd.
    + pose proof (createHTTPSConfig_present_frame env w (mk_is_Some _ _ Hd)) as Hw.
      rewrite H in Hw. cbn [snd] in Hw. subst w'. by exists r.
    + destruct (decide (fs w !! ["certs"; "cert.pem"] = Some Dir)) as [Hc|Hc].
      { destruct (createHTTPSConfig_squatted env w Hp Hd (or_introl Hc)) as (e & w1 & He).
        congruence. }
      destruct (decide (fs w !! ["certs"; "key.pem"] = Some Dir)) as [Hk|Hk].
      { destruct (createHTTPSConfig_squatted env w Hp Hd (or_intror Hk)) as (e & w1 & He).
        congruence. }
      rewrite (createHTTPSConfig_fresh env w Hp Hd Hc Hk) in H. injection H as <- <-.
      eexists. apply createHTTPSConfig_cached; [exact Hp|..]; cbn [fs].
      * rewrite !lookup_insert_ne by done. rewrite lookup_insert_eq. eauto.
      * by rewrite lookup_insert_eq.
      * rewrite lookup_insert_ne by done. by rewrite lookup_insert_eq.
Qed.

Lemma not_production (env : gmap string string) :
  env !! "NODE_ENV" <> Some "production" -> Env.production env = false.
Proof.
  intros H. destruct (Env.production env) eqn:E; [|reflexivity].
  exfalso. apply H. by apply production_spec.
Qed.

(** C3, as amended.  createHTTPSConfig returns false exactly when
    NODE_ENV is "production".  Otherwise it checks for the certs/
    directory.  When the directory is missing (in a tree-shaped file
    system) it draws a self-signed pair, makes the directory, writes
    cert.pem and key.pem and returns the pair.  When the directory is
    there it writes nothing and draws nothing: it returns the stored
    pair if key.pem and cert.pem are both files, and throws if one of
    them is not. *)
Theorem createHTTPSConfig_behaviour (env : gmap string string) (w : world) :
  (fst (createHTTPSConfig env w) = Return https_false
   <-> env !! "NODE_ENV" = Some "production") /\
  (env !! "NODE_ENV" <> Some "production" ->
   fs w !! ["certs"] = None ->
   Fs.tree_shaped (fs w) ->
   let pems := selfsigned_generate cert_attrs cert_options (entropy w) in
   createHTTPSConfig env w
   = (Return (https_pair (Selfsigned.private pems) (Selfsigned.cert pems)),
      World (<[ ["certs"; "key.pem"] := File (Selfsigned.private pems) ]>
             (<[ ["certs"; "cert.pem"] := File (Selfsigned.cert pems) ]>
              (<[ ["certs"] := Dir ]> (fs w))))
            (S (entropy w)))) /\
  (env !! "NODE_ENV" <> Some "production" ->
   is_Some (fs w !! ["certs"]) ->
   snd (createHTTPSConfig env w) = w /\
   (forall k c,
       fs w !! ["certs"; "key.pem"] = Some (File k) ->
       fs w !! ["certs"; "cert.pem"] = Some (File c) ->
       fst (createHTTPSConfig env w) = Return (https_pair k c)) /\
   ((forall k, fs w !! ["certs"; "key.pem"] <> Some (File k))
    \/ (forall c, fs w !! ["certs"; "cert.pem"] <> Some (File c)) ->
    exists e, fst (createHTTPSConfig env w) = Throw e)).
Proof.
  split; [|split].
  - split.
    + intros H. apply production_spec.
      destruct (Env.production env) eqn:Hp; [reflexivity|].
      exfalso. by apply (createHTTPSConfig_development env w Hp).
    + intros H. apply production_spec in H.
      by rewrite createHTTPSConfig_production.
  - intros Hn Hd Ht pems. apply createHTTPSConfig_fresh.
    + by apply not_production.
    + exact Hd.
    + by rewrite (tree_shaped_below _ _ _ Ht Hd).
    + by rewrite (tree_shaped_below _ _ _ Ht Hd).
  - intros Hn Hd. pose proof (not_production env Hn) as Hp. split; [|split].
    + by apply createHTTPSConfig_present_frame.
    + intros k c Hk Hc. by rewrite (createHTTPSConfig_cached env w k c).
    + intros Hbad. destruct (createHTTPSConfig_unreadable env w Hp Hd Hbad) as [e ->].
      by exists e.
Qed.

(** C2, as amended.  In every state where certs/ exists,
    createHTTPSConfig draws no new certificate and writes nothing to
    disk; if moreover NODE_ENV is not "production" and key.pem and
    cert.pem are files of that directory, it reads and returns the stored
    pair.  So after a first invocation that provisioned the directory
    (NODE_ENV not "production", no certs/ before, tree-shaped file
    system), key.pem and cert.pem hold the generated private key and
    certificate, and a second invocation returns that persisted pair and
    leaves the world unchanged. *)
Theorem certs_reused (env : gmap string string) (w : world) :
  (is_Some (fs w !! ["certs"]) -> snd (createHTTPSConfig env w) = w) /\
  (env !! "NODE_ENV" <> Some "production" ->
   is_Some (fs w !! ["certs"]) ->
   forall k c,
     fs w !! ["certs"; "key.pem"] = Some (File k) ->
     fs w !! ["certs"; "cert.pem"] = Some (File c) ->
     createHTTPSConfig env w = (Return (https_pair k c), w)) /\
  (env !! "NODE_ENV" <> Some "production" ->
   fs w !! ["certs"] = None ->
   Fs.tree_shaped (fs w) ->
   let pems := selfsigned_generate cert_attrs cert_options (entropy w) in
   let w' := snd (createHTTPSConfig env w) in
   (exists r, fst (createHTTPSConfig env w) = Return r) /\
   fs w' !! ["certs"; "key.pem"] = Some (File (Selfsigned.private pems)) /\
   fs w' !! ["certs"; "cert.pem"] = Some (File (Selfsigned.cert pems)) /\
   createHTTPSConfig env w'
   = (Return (https_pair (Selfsigned.private pems) (Selfsigned.cert pems)), w')).
Proof.
  split; [|split].
  - apply createHTTPSConfig_present_frame.
  - intros Hn Hd k c Hk Hc. apply createHTTPSConfig_cached; auto using not_production.
  - intros Hn Hd Ht pems w'.
    pose proof (not_production env Hn) as Hp.
    pose proof (createHTTPSConfig_fresh env w Hp Hd) as H.
    rewrite !(tree_shaped_below _ _ _ Ht Hd) in H.
    specialize (H ltac:(discriminate) ltac:(discriminate)). cbv zeta in H. fold pems in H.
    subst w'. rewrite H. cbn [fst snd fs].
    assert (Hkey : (<[ ["certs"; "key.pem"] := File (Selfsigned.private pems) ]>
                    (<[ ["certs"; "cert.pem"] := File (Selfsigned.cert pems) ]>
                     (<[ ["certs"] := Dir ]> (fs w)))) !! ["certs"; "key.pem"]
                   = Some (File (Selfsigned.private pems)))
      by apply lookup_insert_eq.
    assert (Hcert : (<[ ["certs"; "key.pem"] := File (Selfsigned.private pems) ]>
                     (<[ ["certs"; "cert.pem"] := File (Selfsigned.cert pems) ]>
                      (<[ ["certs"] := Dir ]> (fs w)))) !! ["certs"; "cert.pem"]
                    = Some (File (Selfsigned.cert pems)))
      by (rewrite lookup_insert_ne by done; apply lookup_insert_eq).
    split; [eauto|]. split; [exact Hkey|]. split; [exact Hcert|].
    apply createHTTPSConfig_cached; [exact Hp| |exact Hkey|exact Hcert].
    cbn [fs]. rewrite !lookup_insert_ne by done. rewrite lookup_insert_eq. eauto.
Qed.

(** C6.  NODE_ENV toggles three things.  When it equals "production":
    the devtool is "source-map", the css-loader of the .scss rule and
    of the .css rule minimizes, and createHTTPSConfig returns false
    without touching the world.  In every other environment: the devtool
    is "inline-source-map", neither css-loader minimizes, and
    createHTTPSConfig does not return false. *)
Theorem node_env_toggles (env : gmap string string) (https : https_config) (w : world) :
  (env !! "NODE_ENV" = Some "production" ->
   Config.devtool (config env https) = "source-map" /\
   scss_minimize (Config.rules (config env https)) = JBool true /\
   css_minimize (Config.rules (config env https)) = JBool true /\
   createHTTPSConfig env w = (Return https_false, w)) /\
  (env !! "NODE_ENV" <> Some "production" ->
   Config.devtool (config env https) = "inline-source-map" /\
   scss_minimize (Config.rules (config env https)) = JBool false /\
   css_minimize (Config.rules (config env https)) = JBool false /\
   fst (createHTTPSConfig env w) <> Return https_false).
Proof.
  split.
  - intros H. apply production_spec in H.
    repeat split; [cbn; by rewrite H ..|].
    by apply createHTTPSConfig_production.
  - intros H. apply not_production in H.
    repeat split; [cbn; by rewrite H ..|].
    by apply createHTTPSConfig_development.
Qed.

(** *** Entries, HTML documents, the template hook, the dev server *)

(** C4.  For each of the three declared entry points exactly one
    HTMLWebpackPlugin of the plugin list has the chunks list holding
    just that entry's name; and every HTMLWebpackPlugin of the list has
    such a one-name chunks list, so no HTML output references another
    entry's chunk. *)
Theorem one_html_output_per_entry (env : gmap string string) (https : https_config) :
  (forall name,
      name ∈ map fst (Config.entry (config env https)) ->
      length (filter (fun o => Html.chunks o = [name])
                     (html_outputs (Config.plugins (config env https)))) = 1%nat) /\
  (forall o,
      o ∈ html_outputs (Config.plugins (config env https)) ->
      exists name,
        name ∈ map fst (Config.entry (config env https)) /\ Html.chunks o = [name]).
Proof.
  split.
  - intros name Hin. cbn in Hin.
    repeat (apply elem_of_cons in Hin as [->|Hin]); [reflexivity..|].
    by apply elem_of_nil in Hin.
  - intros o Hin. cbn in Hin.
    repeat (apply elem_of_cons in Hin as [->|Hin]);
      [eexists; split; [|reflexivity]; cbn; set_solver ..|].
    by apply elem_of_nil in Hin.
Qed.

(** C5.  The configuration declares exactly the three entry points
    lobby, room and onboarding; the output filename pattern is
    "[name]-[chunkhash].js"; and the HTML documents are index.html for
    the lobby chunk, room.html for the room chunk and onboarding.html
    for the onboarding chunk. *)
Theorem entries_and_documents (env : gmap string string) (https : https_config) :
  Config.entry (config env https)
  = [("lobby", ["src"; "lobby.js"]);
     ("room", ["src"; "room.js"]);
     ("onboarding", ["src"; "onboarding.js"])] /\
  Output.filename (Config.output (config env https)) = "[name]-[chunkhash].js" /\
  map (fun o => (Html.chunks o, Html.filename o))
      (html_outputs (Config.plugins (config env https)))
  = [(["lobby"], "index.html");
     (["room"], "room.html");
     (["onboarding"], "onboarding.html")].
Proof. repeat split. Qed.

(** C7.  The plugin list holds one LodashTemplatePlugin.  Its imports
    are exactly NODE_ENV, ORIGIN_TRIAL_EXPIRES and ORIGIN_TRIAL_TOKEN,
    each with its value from the environment.  It hooks the event
    html-webpack-plugin-before-html-processing of every compilation;
    the hook passes data.html and the plugin options to _.template,
    stores the result in data.html, and returns the data object with
    its other properties as they were. *)
Theorem template_hook (env : gmap string string) (https : https_config) :
  exists options,
    template_plugins (Config.plugins (config env https)) = [options] /\
    Lodash.imports options
    = [("NODE_ENV", env !! "NODE_ENV");
       ("ORIGIN_TRIAL_EXPIRES", env !! "ORIGIN_TRIAL_EXPIRES");
       ("ORIGIN_TRIAL_TOKEN", env !! "ORIGIN_TRIAL_TOKEN")] /\
    LodashTemplatePlugin_apply options
    = [("compilation",
        [("html-webpack-plugin-before-html-processing",
          LodashTemplatePlugin_hook options)])] /\
    forall data text,
      lodash_template (Html.html data) options = Return text ->
      exists data',
        LodashTemplatePlugin_hook options data = Return data' /\
        Html.html data' = text /\
        Html.assets data' = Html.assets data /\
        Html.plugin data' = Html.plugin data /\
        Html.outputName data' = Html.outputName data.
Proof.
  eexists. split; [reflexivity|]. split; [reflexivity|]. split; [reflexivity|].
  intros data text H. unfold LodashTemplatePlugin_hook. rewrite H.
  eexists. repeat split.
Qed.

Lemma head_route_head (now : Z) (req : request) (res : response) :
  req_method req = HEAD ->
  Express.dispatch (before []) now req res
  = Sent (Response (headers res ++ [("Date", toGMTString now)]) (Some "")).
Proof.
  intros H. unfold before, Express.head, head_handler.
  cbn [app Express.dispatch verb pattern action]. rewrite H. reflexivity.
Qed.

Lemma head_route_other (now : Z) (req : request) (res : response) :
  req_method req <> HEAD ->
  Express.dispatch (before []) now req res = Next res.
Proof.
  intros H. unfold before, Express.head, head_handler.
  cbn [app Express.dispatch verb pattern action].
  destruct (req_method req); try reflexivity. congruence.
Qed.

(** C8.  The dev server's host is "0.0.0.0"; its https option is the
    value createHTTPSConfig returned when the module was loaded; a HEAD
    request is answered with the Date header set to the current time
    and an empty body; every other request goes on to the next handler
    with the response untouched. *)
Theorem dev_server (env : gmap string string) (https : https_config) :
  DevServer.host (Config.devServer (config env https)) = "0.0.0.0" /\
  (forall w c w',
      load env w = (Return c, w') ->
      createHTTPSConfig env w = (Return (DevServer.https (Config.devServer c)), w')) /\
  (forall now req res,
      req_method req = HEAD ->
      Express.dispatch (DevServer.before (Config.devServer (config env https)) [])
                       now req res
      = Sent (Response (headers res ++ [("Date", toGMTString now)]) (Some ""))) /\
  (forall now req res,
      req_method req <> HEAD ->
      Express.dispatch (DevServer.before (Config.devServer (config env https)) [])
                       now req res
      = Next res).
Proof.
  split; [reflexivity|]. split; [|split].
  - intros w c w' H. unfold load in H. rewrite bind_run in H.
    destruct (createHTTPSConfig env w) as [[h|e] w1]; [|discriminate].
    unfold ret in H. injection H as <- <-. reflexivity.
  - intros now req res. apply head_route_head.
  - intros now req res. apply head_route_other.
Qed.

(** *** Further properties of the file *)

Lemma length_append (a b : string) :
  String.length (a +:+ b) = (String.length a + String.length b)%nat.
Proof. induction a as [|c a IH]; simpl; [reflexivity | by rewrite IH]. Qed.

Lemma append_empty_r (a : string) : a +:+ "" = a.
Proof.
  induction a as [|c a IH]; [reflexivity|].
  change (String c (a +:+ "") = String c a). by f_equal.
Qed.

Lemma slice_split (n : nat) (s : string) :
  exists pre,
    s = pre +:+ Str.slice n s
    /\ String.length (Str.slice n s) = (String.length s - n)%nat.
Proof.
  revert s. induction n as [|n IH]; intros s.
  - exists "". split; [reflexivity | simpl; lia].
  - destruct s as [|c s].
    + exists "". split; reflexivity.
    + destruct (IH s) as (pre & Hs & Hl). exists (String c pre). split.
      * change (String c s = String c (pre +:+ Str.slice n s)). by f_equal.
      * exact Hl.
Qed.

(** [endsWith] finds exactly the strings that end with the suffix. *)
Lemma endsWith_spec (p s : string) :
  Str.endsWith p s = true <-> exists stem, s = stem +:+ p.
Proof.
  unfold Str.endsWith. rewrite andb_true_iff, Nat.leb_le. split.
  - intros [Hs Hle]. destruct (startsWith_inv _ _ Hs) as [t Ht].
    destruct (slice_split (String.length s - String.length p) s) as (stem & Hsplit & Hlen).
    rewrite Ht, length_append in Hlen.
    assert (t = "") as -> by (destruct t; [reflexivity | simpl in Hlen; lia]).
    rewrite append_empty_r in Ht. exists stem. by rewrite <- Ht.
  - intros [stem ->]. rewrite length_append.
    replace (String.length stem + String.length p - String.length p)%nat
      with (String.length stem) by lia.
    rewrite slice_app. split; [|lia].
    rewrite <- (append_empty_r p) at 2. apply startsWith_app.
Qed.

(** X1.  [assetFilter] leaves an asset out of the size warnings exactly
    when its name ends with a dot followed by map, png, jpg, gif or glb;
    every other asset is counted. *)
Theorem assetFilter_ignores_media_and_maps (assetFilename : string) :
  assetFilter assetFilename = false
  <-> exists stem ext,
        In ext ["map"; "png"; "jpg"; "gif"; "glb"]
        /\ assetFilename = stem +:+ "." +:+ ext.
Proof.
  unfold assetFilter. rewrite negb_false_iff, existsb_exists. split.
  - intros (ext & Hin & He). apply endsWith_spec in He as [stem ->]. eauto.
  - intros (stem & ext & Hin & ->). exists ext. split; [exact Hin|].
    apply endsWith_spec. eauto.
Qed.

(** X2.  The exported function never throws: [replace] is only reached
    when BASE_ASSETS_PATH holds a string. *)
Theorem module_exports_never_throws (env : gmap string string) (c : Config.t) :
  exists e, module_exports env c = Return e.
Proof.
  unfold module_exports.
  destruct (Env.truthy (Env.read env "GENERATE_SMOKE_TESTS")); [|eauto].
  destruct (Env.read env "BASE_ASSETS_PATH") as [base|] eqn:Hb; cbn [Env.truthy andb].
  - destruct (negb (base =? "")%string); eauto.
  - eauto.
Qed.

Lemma replace_present_length (pat rep s : string) :
  contains pat s ->
  (String.length (Str.replace pat rep s) + String.length pat
   = String.length s + String.length rep)%nat.
Proof.
  induction s as [|c s IH]; intros (pre & post & Ho); unfold Str.occurs in Ho;
    rewrite replace_unfold.
  - destruct pre; [|discriminate Ho]. cbn [String.append] in Ho.
    destruct pat; [|discriminate Ho]. cbn. rewrite length_append. cbn. lia.
  - destruct (Str.startsWith pat (String c s)) eqn:E.
    + destruct (startsWith_inv _ _ E) as [t Ht].
      rewrite Ht, slice_app, !length_append. lia.
    + destruct pre as [|c' pre].
      * change (String c s = pat +:+ post) in Ho.
        rewrite Ho, startsWith_app in E. discriminate E.
      * change (String c s = String c' (pre +:+ pat +:+ post)) in Ho.
        injection Ho as _ Ho. cbn [String.length].
        pose proof (IH (ex_intro _ pre (ex_intro _ post Ho))). lia.
Qed.

(** X3.  In a smoke build whose BASE_ASSETS_PATH contains "://", the
    public path of the smoke configuration is six characters longer than
    that of the normal configuration, so the two differ. *)
Theorem smoke_publicPath_differs (env : gmap string string) (https : https_config)
    (base : string) :
  Env.truthy (Env.read env "GENERATE_SMOKE_TESTS") = true ->
  Env.read env "BASE_ASSETS_PATH" = Some base ->
  contains "://" base ->
  exists smoke,
    module_exports env (config env https) = Return (Multi [config env https; smoke]) /\
    String.length (Output.publicPath (Config.output smoke))
    = (String.length (Output.publicPath (Config.output (config env https))) + 6)%nat /\
    Output.publicPath (Config.output smoke)
    <> Output.publicPath (Config.output (config env https)).
Proof.
  intros Hg Hb Hc.
  assert (Hne : base <> "").
  { intros ->. destruct Hc as (pre & post & Ho). unfold Str.occurs in Ho.
    destruct pre; discriminate Ho. }
  exists (smokeConfig base (config env https)).
  split; [by apply module_exports_smoke|].
  cbn [smokeConfig config Config.output Output.publicPath].
  rewrite Hb, or_empty_truthy.
  pose proof (replace_present_length "://" "://smoke-" base Hc) as Hl.
  cbn [String.length] in Hl. split; [lia|].
  intros Heq. rewrite Heq in Hl. lia.
Qed.

Lemma module_exports_cases (env : gmap string string) (c : Config.t) :
  module_exports env c = Return (Single c)
  \/ exists base, module_exports env c = Return (Multi [c; smokeConfig base c]).
Proof.
  unfold module_exports.
  destruct (Env.truthy (Env.read env "GENERATE_SMOKE_TESTS")); [|by left].
  destruct (Env.read env "BASE_ASSETS_PATH") as [base|] eqn:Hb; cbn [Env.truthy andb].
  - destruct (negb (base =? "")%string); [right; by exists base | by left].
  - by left.
Qed.

(** X4.  Whatever the exported function returns, every configuration in
    it keeps the pairing of entries and HTML documents: each entry name is
    the single chunk of exactly one HTML plugin, and every HTML plugin has
    one entry name as its only chunk.  The smoke configuration is
    included. *)
Theorem every_export_pairs_entries_with_documents (env : gmap string string)
    (https : https_config) (e : exported) (c : Config.t) :
  module_exports env (config env https) = Return e ->
  c ∈ exported_configs e ->
  (forall name,
      name ∈ map fst (Config.entry c) ->
      length (filter (fun o => Html.chunks o = [name]) (html_outputs (Config.plugins c)))
      = 1%nat) /\
  (forall o,
      o ∈ html_outputs (Config.plugins c) ->
      exists name, name ∈ map fst (Config.entry c) /\ Html.chunks o = [name]).
Proof.
  clear selfsigned_generate lodash_template. intros He Hc.
  assert (Hc' : c = config env https
                \/ exists base, c = smokeConfig base (config env https)).
  { destruct (module_exports_cases env (config env https)) as [H|[base H]];
      rewrite H in He; injection He as <-; cbn in Hc.
    - apply list_elem_of_singleton in Hc. by left.
    - apply elem_of_cons in Hc as [->|Hc]; [by left|].
      apply list_elem_of_singleton in Hc. right. by exists base. }
  destruct Hc' as [->|[base ->]]; split.
  - intros name Hin. cbn in Hin.
    repeat (apply elem_of_cons in Hin as [->|Hin]); [reflexivity..|].
    by apply elem_of_nil in Hin.
  - intros o Hin. cbn in Hin.
    repeat (apply elem_of_cons in Hin as [->|Hin]);
      [eexists; split; [|reflexivity]; cbn; set_solver ..|].
    by apply elem_of_nil in Hin.
  - intros name Hin. cbn in Hin.
    repeat (apply elem_of_cons in Hin as [->|Hin]); [reflexivity..|].
    by apply elem_of_nil in Hin.
  - intros o Hin. cbn in Hin.
    repeat (apply elem_of_cons in Hin as [->|Hin]);
      [eexists; split; [|reflexivity]; cbn; set_solver ..|].
    by apply elem_of_nil in Hin.
Qed.

Lemma smoke_filenames (ps : list plugin) :
  html_filenames (map smoke_plugin ps)
  = map (fun f => "smoke-" +:+ f) (html_filenames ps).
Proof.
  unfold html_filenames, html_outputs.
  induction ps as [|p ps IH]; [reflexivity|].
  destruct p; cbn; try exact IH. f_equal. exact IH.
Qed.

(** X5.  For any plugin list whose HTML filenames are pairwise distinct
    and do not themselves start with "smoke-", the smoke build's HTML
    filenames are pairwise distinct and none of them is a filename of the
    normal build, so the two builds never write the same document. *)
Theorem smoke_documents_never_collide (ps : list plugin) :
  NoDup (html_filenames ps) ->
  (forall f, f ∈ html_filenames ps -> Str.startsWith "smoke-" f = false) ->
  NoDup (html_filenames ps ++ html_filenames (map smoke_plugin ps)).
Proof.
  intros Hnd Hpre. rewrite smoke_filenames. apply NoDup_app. split; [exact Hnd|]. split.
  - intros x Hx Hx'. apply list_elem_of_In, in_map_iff in Hx' as (f & <- & _).
    specialize (Hpre _ Hx). by rewrite startsWith_app in Hpre.
  - clear Hpre. induction Hnd as [|f fs Hf Hnd IH]; cbn; [constructor|].
    constructor; [|exact IH]. intros Hin. apply Hf. apply list_elem_of_In, in_map_iff in Hin as (g & Hg & Hin).
    apply list_elem_of_In in Hin. cbn in Hg. by simplify_eq.
Qed.

(** X7.  The file reads six environment variables and no other: two
    environments that agree on NODE_ENV, BASE_ASSETS_PATH,
    ORIGIN_TRIAL_EXPIRES, ORIGIN_TRIAL_TOKEN, JANUS_SERVER and
    GENERATE_SMOKE_TESTS give the same result in every world. *)
Theorem only_consulted_variables_matter (env env' : gmap string string) (w : world) :
  (forall name, name ∈ consulted -> env !! name = env' !! name) ->
  webpack_config env w = webpack_config env' w.
Proof.
  intros H.
  assert (H1 : env !! "NODE_ENV" = env' !! "NODE_ENV") by (apply H; set_solver).
  assert (H2 : env !! "BASE_ASSETS_PATH" = env' !! "BASE_ASSETS_PATH")
    by (apply H; set_solver).
  assert (H3 : env !! "ORIGIN_TRIAL_EXPIRES" = env' !! "ORIGIN_TRIAL_EXPIRES")
    by (apply H; set_solver).
  assert (H4 : env !! "ORIGIN_TRIAL_TOKEN" = env' !! "ORIGIN_TRIAL_TOKEN")
    by (apply H; set_solver).
  assert (H5 : env !! "JANUS_SERVER" = env' !! "JANUS_SERVER") by (apply H; set_solver).
  assert (H6 : env !! "GENERATE_SMOKE_TESTS" = env' !! "GENERATE_SMOKE_TESTS")
    by (apply H; set_solver).
  unfold webpack_config, load, createHTTPSConfig, module_exports, config, rules, plugins,
    Env.production, Env.read.
  rewrite H1, H2, H3, H4, H5, H6. reflexivity.
Qed.

(** X8.  A production build is pure: with NODE_ENV "production" the file
    always returns, leaves the world as it found it, and every
    configuration it exports has https false and devtool "source-map". *)
Theorem production_build_is_pure (env : gmap string string) (w : world) :
  env !! "NODE_ENV" = Some "production" ->
  exists e,
    webpack_config env w = (Return e, w) /\
    forall c,
      c ∈ exported_configs e ->
      DevServer.https (Config.devServer c) = https_false /\
      Config.devtool c = "source-map".
Proof.
  intros Hp. apply production_spec in Hp.
  unfold webpack_config, load.
  rewrite !bind_run, createHTTPSConfig_production by done. unfold ret.
  destruct (module_exports_cases env (config env https_false)) as [H|[base H]];
    rewrite H; eexists; (split; [reflexivity|]); intros c Hc; cbn in Hc.
  - apply list_elem_of_singleton in Hc as ->. cbn. by rewrite Hp.
  - apply elem_of_cons in Hc as [->|Hc]; [|apply list_elem_of_singleton in Hc as ->];
      cbn; by rewrite Hp.
Qed.

Lemma webpack_config_run (env : gmap string string) (w : world) :
  webpack_config env w
  = match createHTTPSConfig env w with
    | (Return h, w') => (module_exports env (config env h), w')
    | (Throw e, w') => (Throw e, w')
    end.
Proof.
  unfold webpack_config, load. rewrite !bind_run.
  destruct (createHTTPSConfig env w) as [[h|e] w']; reflexivity.
Qed.

(** X9.  A load that returns can be repeated: loading the file again in
    the world the first load left returns too, and changes nothing (no
    key pair is drawn, nothing is written). *)
Theorem webpack_config_repeatable (env : gmap string string) (w w' : world)
    (e : exported) :
  webpack_config env w = (Return e, w') ->
  exists e', webpack_config env w' = (Return e', w').
Proof.
  rewrite !webpack_config_run. intros H.
  destruct (createHTTPSConfig env w) as [[h|err] w1] eqn:E; [|discriminate H].
  injection H as H <-.
  destruct (createHTTPSConfig_repeatable env w w1 h E) as [h' ->].
  destruct (module_exports_cases env (config env h')) as [H'|[base H']]; rewrite H'; eauto.
Qed.

(** X10.  The file fails exactly when createHTTPSConfig fails, with the
    same error and the same world; and when it returns, every exported
    configuration, the smoke one included, carries the one value that the
    single createHTTPSConfig call returned. *)
Theorem webpack_config_outcome (env : gmap string string) (w : world) :
  (forall err w',
      webpack_config env w = (Throw err, w')
      <-> createHTTPSConfig env w = (Throw err, w')) /\
  (forall e w',
      webpack_config env w = (Return e, w') ->
      exists h,
        createHTTPSConfig env w = (Return h, w') /\
        forall c, c ∈ exported_configs e -> DevServer.https (Config.devServer c) = h).
Proof.
  rewrite webpack_config_run. split.
  - intros err w'. destruct (createHTTPSConfig env w) as [[h|err1] w1];
      [|split; intros [= -> ->]; reflexivity].
    destruct (module_exports_cases env (config env h)) as [H|[base H]]; rewrite H;
      split; intros [=].
  - intros e w' H. destruct (createHTTPSConfig env w) as [[h|err1] w1]; [|discriminate H].
    injection H as H <-. exists h. split; [reflexivity|]. intros c Hc.
    destruct (module_exports_cases env (config env h)) as [H'|[base H']];
      rewrite H' in H; injection H as <-; cbn in Hc.
    + by apply list_elem_of_singleton in Hc as ->.
    + apply elem_of_cons in Hc as [->|Hc]; [reflexivity|].
      by apply list_elem_of_singleton in Hc as ->.
Qed.

(** X11.  createHTTPSConfig touches nothing but certs/, certs/cert.pem
    and certs/key.pem: whether it returns or throws, every other path
    holds afterwards what it held before, no path disappears, and at most
    one key pair is drawn from the generator. *)
Theorem createHTTPSConfig_touches_only_certs (env : gmap string string) (w : world) :
  (forall p,
      p ∉ cert_paths ->
      fs (snd (createHTTPSConfig env w)) !! p = fs w !! p) /\
  (forall p,
      is_Some (fs w !! p) ->
      is_Some (fs (snd (createHTTPSConfig env w)) !! p)) /\
  (entropy w <= entropy (snd (createHTTPSConfig env w)) <= S (entropy w))%nat.
Proof.
  destruct w as [f n].
  unfold createHTTPSConfig, bind, ret, generate, Fs.existsSync, Fs.readFileSync,
    Fs.mkdirSync, Fs.writeFileSync, Fs.lift, Fs.in_parent, cert_paths.
  split; [|split].
  - intros p Hp.
    apply not_elem_of_cons in Hp as [H1 Hp].
    apply not_elem_of_cons in Hp as [H2 Hp].
    apply not_elem_of_cons in Hp as [H3 _].
    destruct (Env.production env); cbn [fs entropy snd]; [reflexivity|].
    repeat case_match; simplify_eq; cbn [fs snd];
      rewrite ?lookup_insert_ne by done; reflexivity.
  - intros p Hp.
    destruct (Env.production env); cbn [fs entropy snd]; [exact Hp|].
    repeat case_match; simplify_eq; cbn [fs snd];
      rewrite ?lookup_insert_is_Some'; auto.
  - destruct (Env.production env); cbn [fs entropy snd]; [lia|].
    repeat case_match; simplify_eq; cbn [entropy snd]; lia.
Qed.

End Webpack.

(** * The definitions at work *)

Example replace_url :
  Str.replace "://" "://smoke-" "https://assets.example.com/a://b"
  = "https://smoke-assets.example.com/a://b".
Proof. reflexivity. Qed.

Example replace_no_scheme :
  Str.replace "://" "://smoke-" "/assets/" = "/assets/".
Proof. reflexivity. Qed.

Example assetFilter_media :
  map assetFilter ["room.js"; "room.js.map"; "avatar.glb"; "png"; "logo.png.txt"]
  = [true; false; false; true; true].
Proof. vm_compute. reflexivity. Qed.

Example get_route_takes_head :
  Express.dispatch [Route GET "*" (fun _ _ res => Sent (Express.send "page" res))]
    0%Z (Request HEAD "/") (Response [] None)
  = Sent (Response [] (Some "page")).
Proof. reflexivity. Qed.

Example head_route_skips_get :
  Express.dispatch [Route HEAD "*" (fun _ _ res => Sent (Express.send "" res))]
    0%Z (Request GET "/") (Response [] None)
  = Next (Response [] None).
Proof. reflexivity. Qed.

Example first_run_provisions :
  createHTTPSConfig Sample.generate Sample.development Sample.fresh
  = (Return (https_pair "PRIVATE" "CERT"),
     World (<[ ["certs"; "key.pem"] := File "PRIVATE" ]>
            (<[ ["certs"; "cert.pem"] := File "CERT" ]>
             {[ ["certs"] := Dir ]})) 1).
Proof. vm_compute. reflexivity. Qed.

Example second_run_reads :
  createHTTPSConfig Sample.generate Sample.development Sample.provisioned
  = (Return (https_pair "K" "C"), Sample.provisioned).
Proof. vm_compute. reflexivity. Qed.

Example smoke_export_names :
  match module_exports Sample.smoke (config Sample.toGMTString Sample.smoke https_false) with
  | Return (Multi cs) =>
      map (fun c => (Output.publicPath (Config.output c),
                     map Html.filename (html_outputs (Config.plugins c)))) cs
  | _ => []
  end
  = [("https://assets.example.com/hubs/",
      ["index.html"; "room.html"; "onboarding.html"]);
     ("https://smoke-assets.example.com/hubs/",
      ["smoke-index.html"; "smoke-room.html"; "smoke-onboarding.html"])].
Proof. vm_compute. reflexivity. Qed.

Example smoke_build_from_scratch :
  webpack_config Sample.generate Sample.toGMTString Sample.smoke Sample.fresh
  = (Return (Multi [config Sample.toGMTString Sample.smoke (https_pair "PRIVATE" "CERT");
                    smokeConfig "https://assets.example.com/hubs/"
                      (config Sample.toGMTString Sample.smoke (https_pair "PRIVATE" "CERT"))]),
     World (<[ ["certs"; "key.pem"] := File "PRIVATE" ]>
            (<[ ["certs"; "cert.pem"] := File "CERT" ]>
             {[ ["certs"] := Dir ]})) 1).
Proof. vm_compute. reflexivity. Qed.

Example production_build_skips_certs :
  webpack_config Sample.generate Sample.toGMTString Sample.production Sample.fresh
  = (Return (Single (config Sample.toGMTString Sample.production https_false)),
     Sample.fresh).
Proof. vm_compute. reflexivity. Qed.

(** * Instances of the theorems *)

(** C1 as first stated fails: with GENERATE_SMOKE_TESTS set to the empty
    string and BASE_ASSETS_PATH set, the exported function returns the
    base configuration alone, not two configurations. *)
Lemma blank_trigger_gives_single :
  Env.is_set Sample.smoke_blank "GENERATE_SMOKE_TESTS" /\
  Env.is_set Sample.smoke_blank "BASE_ASSETS_PATH" /\
  module_exports Sample.smoke_blank
    (config Sample.toGMTString Sample.smoke_blank https_false)
  = Return (Single (config Sample.toGMTString Sample.smoke_blank https_false)).
Proof.
  split; [|split].
  - exists "". reflexivity.
  - exists "https://assets.example.com/hubs/". reflexivity.
  - reflexivity.
Qed.

(** The smoke variant of the sample smoke environment. *)
Lemma smoke_variant_frame_witness :
  Env.truthy (Env.read Sample.smoke "GENERATE_SMOKE_TESTS") = true /\
  Env.truthy (Env.read Sample.smoke "BASE_ASSETS_PATH") = true /\
  exists smoke,
    module_exports Sample.smoke (config Sample.toGMTString Sample.smoke https_false)
    = Return (Multi [config Sample.toGMTString Sample.smoke https_false; smoke]) /\
    Config.rules smoke = Config.rules (config Sample.toGMTString Sample.smoke https_false) /\
    Forall2 smoke_of
      (Config.plugins (config Sample.toGMTString Sample.smoke https_false))
      (Config.plugins smoke).
Proof.
  split; [reflexivity|]. split; [reflexivity|].
  destruct (smoke_variant_frame Sample.toGMTString Sample.smoke https_false
              eq_refl eq_refl)
    as (base & smoke & _ & He & _ & _ & _ & _ & _ & Hr & _ & _ & _ & _ & Hp & _).
  exists smoke. split; [exact He|]. split; [exact Hr | exact Hp].
Defined.

(** One environment for each of the three parts: both variables truthy,
    the trigger blank, the asset path unset. *)
Lemma exports_array_iff_truthy_witness :
  (Env.truthy (Env.read Sample.smoke "GENERATE_SMOKE_TESTS") = true
   /\ Env.truthy (Env.read Sample.smoke "BASE_ASSETS_PATH") = true) /\
  (exists smoke,
      module_exports Sample.smoke (config Sample.toGMTString Sample.smoke https_false)
      = Return (Multi [config Sample.toGMTString Sample.smoke https_false; smoke])) /\
  ~ (Env.truthy (Env.read Sample.smoke_blank "GENERATE_SMOKE_TESTS") = true
     /\ Env.truthy (Env.read Sample.smoke_blank "BASE_ASSETS_PATH") = true) /\
  module_exports Sample.smoke_blank
    (config Sample.toGMTString Sample.smoke_blank https_false)
  = Return (Single (config Sample.toGMTString Sample.smoke_blank https_false)) /\
  Env.read Sample.development "BASE_ASSETS_PATH" = None /\
  Output.publicPath (Config.output (config Sample.toGMTString Sample.development https_false))
  = "".
Proof.
  assert (Hblank : ~ (Env.truthy (Env.read Sample.smoke_blank "GENERATE_SMOKE_TESTS") = true
                      /\ Env.truthy (Env.read Sample.smoke_blank "BASE_ASSETS_PATH") = true))
    by (intros [H _]; vm_compute in H; discriminate H).
  split; [split; reflexivity|]. split; [|split; [exact Hblank | split]].
  - apply (proj2 (proj1 (exports_array_iff_truthy Sample.toGMTString Sample.smoke https_false))).
    split; reflexivity.
  - apply (proj1 (proj2 (exports_array_iff_truthy
                           Sample.toGMTString Sample.smoke_blank https_false))).
    exact Hblank.
  - split; [reflexivity|].
    apply (proj2 (proj2 (exports_array_iff_truthy
                           Sample.toGMTString Sample.development https_false))).
    reflexivity.
Defined.

(** Refutes [Ho : s = pre +:+ pat +:+ post] for closed [s] and [pat] by
    walking along [s]. *)
Ltac peel Ho pre :=
  repeat (destruct pre as [|? pre]; [discriminate Ho|];
          cbn [String.append] in Ho; injection Ho as _ Ho);
  destruct pre; discriminate Ho.

(** A url with a scheme gets its host prefixed; a path without one is
    left alone. *)
Lemma smoke_publicPath_first_scheme_witness :
  (Env.truthy (Env.read Sample.smoke "GENERATE_SMOKE_TESTS") = true /\
   Env.read Sample.smoke "BASE_ASSETS_PATH" = Some "https://assets.example.com/hubs/" /\
   "https://assets.example.com/hubs/" <> "" /\
   exists smoke,
     module_exports Sample.smoke (config Sample.toGMTString Sample.smoke https_false)
     = Return (Multi [config Sample.toGMTString Sample.smoke https_false; smoke]) /\
     Str.occurs "://" "https://assets.example.com/hubs/" "https" "assets.example.com/hubs/" /\
     ~ occurs_before "://" "https://assets.example.com/hubs/" (String.length "https") /\
     Output.publicPath (Config.output smoke)
     = "https" +:+ "://smoke-" +:+ "assets.example.com/hubs/") /\
  (Env.truthy (Env.read Sample.smoke_relative "GENERATE_SMOKE_TESTS") = true /\
   Env.read Sample.smoke_relative "BASE_ASSETS_PATH" = Some "/assets/" /\
   "/assets/" <> "" /\
   ~ contains "://" "/assets/" /\
   exists smoke,
     module_exports Sample.smoke_relative
       (config Sample.toGMTString Sample.smoke_relative https_false)
     = Return (Multi [config Sample.toGMTString Sample.smoke_relative https_false; smoke]) /\
     Output.publicPath (Config.output smoke)
     = Output.publicPath
         (Config.output (config Sample.toGMTString Sample.smoke_relative https_false))).
Proof.
  assert (Hmin : ~ occurs_before "://" "https://assets.example.com/hubs/"
                     (String.length "https")).
  { intros (pre & post & Ho & Hlt). unfold Str.occurs in Ho.
    do 5 (destruct pre as [|? pre]; [discriminate Ho|]). cbn in Hlt. lia. }
  assert (Hno : ~ contains "://" "/assets/").
  { intros (pre & post & Ho). unfold Str.occurs in Ho. peel Ho pre. }
  split.
  - split; [reflexivity|]. split; [reflexivity|]. split; [discriminate|].
    destruct (smoke_publicPath_first_scheme Sample.toGMTString Sample.smoke https_false
                "https://assets.example.com/hubs/" eq_refl eq_refl ltac:(discriminate))
      as (smoke & He & Hfirst & _).
    exists smoke. split; [exact He|]. split; [reflexivity|]. split; [exact Hmin|].
    apply Hfirst; [reflexivity | exact Hmin].
  - split; [reflexivity|]. split; [reflexivity|]. split; [discriminate|].
    split; [exact Hno|].
    destruct (smoke_publicPath_first_scheme Sample.toGMTString Sample.smoke_relative
                https_false "/assets/" eq_refl eq_refl ltac:(discriminate))
      as (smoke & He & _ & Hsame).
    exists smoke. split; [exact He | exact (Hsame Hno)].
Defined.

(** C2 as first stated fails in two ways.  With certs/ holding a stored
    pair and NODE_ENV "production" the call returns false, not the pair;
    with certs/ present and empty, and NODE_ENV "development", the call
    throws instead of returning a pair. *)
Lemma certs_present_without_pair :
  (is_Some (fs Sample.provisioned !! ["certs"]) /\
   createHTTPSConfig Sample.generate Sample.production Sample.provisioned
   = (Return https_false, Sample.provisioned)) /\
  (is_Some (fs Sample.emptied !! ["certs"]) /\
   createHTTPSConfig Sample.generate Sample.development Sample.emptied
   = (Throw (ENOENT ["certs"; "key.pem"]), Sample.emptied)).
Proof.
  split; (split; [exists Dir; reflexivity | vm_compute; reflexivity]).
Qed.

(** A stored pair is read back; a first provisioning is read back by the
    next call. *)
Lemma certs_reused_witness :
  (is_Some (fs Sample.provisioned !! ["certs"]) /\
   Sample.development !! "NODE_ENV" <> Some "production" /\
   fs Sample.provisioned !! ["certs"; "key.pem"] = Some (File "K") /\
   fs Sample.provisioned !! ["certs"; "cert.pem"] = Some (File "C") /\
   snd (createHTTPSConfig Sample.generate Sample.development Sample.provisioned)
   = Sample.provisioned /\
   createHTTPSConfig Sample.generate Sample.development Sample.provisioned
   = (Return (https_pair "K" "C"), Sample.provisioned)) /\
  (fs Sample.fresh !! ["certs"] = None /\
   Fs.tree_shaped (fs Sample.fresh) /\
   (exists r,
      fst (createHTTPSConfig Sample.generate Sample.development Sample.fresh) = Return r) /\
   fs (snd (createHTTPSConfig Sample.generate Sample.development Sample.fresh))
   !! ["certs"; "key.pem"] = Some (File "PRIVATE") /\
   fs (snd (createHTTPSConfig Sample.generate Sample.development Sample.fresh))
   !! ["certs"; "cert.pem"] = Some (File "CERT") /\
   createHTTPSConfig Sample.generate Sample.development
     (snd (createHTTPSConfig Sample.generate Sample.development Sample.fresh))
   = (Return (https_pair "PRIVATE" "CERT"),
      snd (createHTTPSConfig Sample.generate Sample.development Sample.fresh))).
Proof.
  assert (Hdev : Sample.development !! "NODE_ENV" <> Some "production")
    by (vm_compute; discriminate).
  assert (Hdir : is_Some (fs Sample.provisioned !! ["certs"]))
    by (exists Dir; reflexivity).
  pose proof (certs_reused Sample.generate Sample.development Sample.provisioned)
    as (Hframe & Hread & _).
  pose proof (certs_reused Sample.generate Sample.development Sample.fresh)
    as (_ & _ & Hfirst).
  split.
  - split; [exact Hdir|]. split; [exact Hdev|].
    split; [reflexivity|]. split; [reflexivity|].
    split; [exact (Hframe Hdir)|].
    apply (Hread Hdev Hdir); reflexivity.
  - split; [reflexivity|]. split; [apply map_Forall_empty|].
    exact (Hfirst Hdev eq_refl (map_Forall_empty _)).
Defined.

(** C3 as first stated fails: outside production, with certs/ present
    and neither key.pem nor cert.pem in it, the call generates nothing,
    persists nothing and returns no pair: it throws. *)
Lemma missing_files_not_regenerated :
  Sample.development !! "NODE_ENV" <> Some "production" /\
  fs Sample.emptied !! ["certs"; "key.pem"] = None /\
  fs Sample.emptied !! ["certs"; "cert.pem"] = None /\
  createHTTPSConfig Sample.generate Sample.development Sample.emptied
  = (Throw (ENOENT ["certs"; "key.pem"]), Sample.emptied).
Proof.
  split; [vm_compute; discriminate|].
  split; [reflexivity|]. split; [reflexivity|]. vm_compute. reflexivity.
Qed.

(** Production, a first run, an empty certs/ and a provisioned certs/. *)
Lemma createHTTPSConfig_behaviour_witness :
  (Sample.production !! "NODE_ENV" = Some "production" /\
   fst (createHTTPSConfig Sample.generate Sample.production Sample.fresh)
   = Return https_false) /\
  (Sample.development !! "NODE_ENV" <> Some "production" /\
   fs Sample.fresh !! ["certs"] = None /\
   Fs.tree_shaped (fs Sample.fresh) /\
   createHTTPSConfig Sample.generate Sample.development Sample.fresh
   = (Return (https_pair "PRIVATE" "CERT"),
      World (<[ ["certs"; "key.pem"] := File "PRIVATE" ]>
             (<[ ["certs"; "cert.pem"] := File "CERT" ]>
              (<[ ["certs"] := Dir ]> ∅))) 1)) /\
  (is_Some (fs Sample.emptied !! ["certs"]) /\
   (forall k, fs Sample.emptied !! ["certs"; "key.pem"] <> Some (File k)) /\
   exists e,
     fst (createHTTPSConfig Sample.generate Sample.development Sample.emptied) = Throw e) /\
  (is_Some (fs Sample.provisioned !! ["certs"]) /\
   fs Sample.provisioned !! ["certs"; "key.pem"] = Some (File "K") /\
   fs Sample.provisioned !! ["certs"; "cert.pem"] = Some (File "C") /\
   snd (createHTTPSConfig Sample.generate Sample.development Sample.provisioned)
   = Sample.provisioned /\
   fst (createHTTPSConfig Sample.generate Sample.development Sample.provisioned)
   = Return (https_pair "K" "C")).
Proof.
  assert (Hdev : Sample.development !! "NODE_ENV" <> Some "production")
    by (vm_compute; discriminate).
  assert (Hdir : is_Some (fs Sample.emptied !! ["certs"]))
    by (exists Dir; reflexivity).
  assert (Hkey : forall k, fs Sample.emptied !! ["certs"; "key.pem"] <> Some (File k))
    by (intros k; vm_compute; discriminate).
  assert (Hprov : is_Some (fs Sample.provisioned !! ["certs"]))
    by (exists Dir; reflexivity).
  split; [|split; [|split]]; cycle 3.
  - destruct (proj2 (proj2 (createHTTPSConfig_behaviour
                              Sample.generate Sample.development Sample.provisioned))
                Hdev Hprov) as (Hframe & Hread & _).
    split; [exact Hprov|]. split; [reflexivity|]. split; [reflexivity|].
    split; [exact Hframe | apply Hread; reflexivity].
  - split; [reflexivity|].
    apply (proj2 (proj1 (createHTTPSConfig_behaviour
                           Sample.generate Sample.production Sample.fresh))).
    reflexivity.
  - split; [exact Hdev|]. split; [reflexivity|]. split; [apply map_Forall_empty|].
    apply (proj1 (proj2 (createHTTPSConfig_behaviour
                           Sample.generate Sample.development Sample.fresh)));
      [exact Hdev | reflexivity | apply map_Forall_empty].
  - split; [exact Hdir|]. split; [exact Hkey|].
    apply (proj2 (proj2 (createHTTPSConfig_behaviour
                           Sample.generate Sample.development Sample.emptied)));
      [exact Hdev | exact Hdir | left; exact Hkey].
Defined.

(** The production and the development environment. *)
Lemma node_env_toggles_witness :
  (Sample.production !! "NODE_ENV" = Some "production" /\
   Config.devtool (config Sample.toGMTString Sample.production https_false) = "source-map" /\
   scss_minimize (Config.rules (config Sample.toGMTString Sample.production https_false))
   = JBool true /\
   css_minimize (Config.rules (config Sample.toGMTString Sample.production https_false))
   = JBool true /\
   createHTTPSConfig Sample.generate Sample.production Sample.fresh
   = (Return https_false, Sample.fresh)) /\
  (Sample.development !! "NODE_ENV" <> Some "production" /\
   Config.devtool (config Sample.toGMTString Sample.development https_false)
   = "inline-source-map" /\
   scss_minimize (Config.rules (config Sample.toGMTString Sample.development https_false))
   = JBool false /\
   css_minimize (Config.rules (config Sample.toGMTString Sample.development https_false))
   = JBool false /\
   fst (createHTTPSConfig Sample.generate Sample.development Sample.fresh)
   <> Return https_false).
Proof.
  split.
  - split; [reflexivity|].
    apply (proj1 (node_env_toggles Sample.generate Sample.toGMTString
                    Sample.production https_false Sample.fresh)).
    reflexivity.
  - assert (Hdev : Sample.development !! "NODE_ENV" <> Some "production")
      by (vm_compute; discriminate).
    split; [exact Hdev|].
    apply (proj2 (node_env_toggles Sample.generate Sample.toGMTString
                    Sample.development https_false Sample.fresh)).
    exact Hdev.
Defined.

(** The room entry and the room document. *)
Lemma one_html_output_per_entry_witness :
  "room" ∈ map fst (Config.entry (config Sample.toGMTString Sample.development https_false)) /\
  length (filter (fun o => Html.chunks o = ["room"])
                 (html_outputs
                    (Config.plugins
                       (config Sample.toGMTString Sample.development https_false))))
  = 1%nat /\
  Html.Options "room.html" ["src"; "room.html"] ["room"] (Some "head")
  ∈ html_outputs (Config.plugins (config Sample.toGMTString Sample.development https_false)) /\
  exists name,
    name ∈ map fst (Config.entry (config Sample.toGMTString Sample.development https_false)) /\
    Html.chunks (Html.Options "room.html" ["src"; "room.html"] ["room"] (Some "head"))
    = [name].
Proof.
  assert (Hin : "room" ∈ map fst (Config.entry
                   (config Sample.toGMTString Sample.development https_false))).
  { cbn. repeat constructor. }
  assert (Hout : Html.Options "room.html" ["src"; "room.html"] ["room"] (Some "head")
                 ∈ html_outputs
                     (Config.plugins
                        (config Sample.toGMTString Sample.development https_false))).
  { cbn. repeat constructor. }
  split; [exact Hin|]. split; [|split; [exact Hout|]].
  - apply (proj1 (one_html_output_per_entry
                    Sample.toGMTString Sample.development https_false)).
    exact Hin.
  - apply (proj2 (one_html_output_per_entry
                    Sample.toGMTString Sample.development https_false)).
    exact Hout.
Defined.

(** The hook on the lobby page with the sample template engine. *)
Lemma template_hook_witness :
  exists options,
    template_plugins
      (Config.plugins (config Sample.toGMTString Sample.development https_false))
    = [options] /\
    Sample.template "<title>hubs</title>" options = Return "development:<title>hubs</title>" /\
    exists data',
      LodashTemplatePlugin_hook Sample.template options
        (Html.Data "<title>hubs</title>" JUndefined
                   (Html.Options "index.html" ["src"; "lobby.html"] ["lobby"] None)
                   "index.html")
      = Return data' /\
      Html.html data' = "development:<title>hubs</title>" /\
      Html.outputName data' = "index.html".
Proof.
  destruct (template_hook Sample.template Sample.toGMTString Sample.development https_false)
    as (options & Hp & Hi & _ & Hhook).
  exists options. split; [exact Hp|].
  assert (Ht : Sample.template "<title>hubs</title>" options
               = Return "development:<title>hubs</title>").
  { unfold Sample.template. rewrite Hi. reflexivity. }
  split; [exact Ht|].
  destruct (Hhook (Html.Data "<title>hubs</title>" JUndefined
                     (Html.Options "index.html" ["src"; "lobby.html"] ["lobby"] None)
                     "index.html") _ Ht)
    as (data' & Hd & Hh & _ & _ & Ho).
  exists data'. split; [exact Hd|]. split; [exact Hh | exact Ho].
Defined.

(** A HEAD probe at time 0 and a GET of the room page. *)
Lemma dev_server_witness :
  (load Sample.generate Sample.toGMTString Sample.development Sample.provisioned
   = (Return (config Sample.toGMTString Sample.development (https_pair "K" "C")),
      Sample.provisioned) /\
   createHTTPSConfig Sample.generate Sample.development Sample.provisioned
   = (Return (https_pair "K" "C"), Sample.provisioned)) /\
  (req_method (Request HEAD "/") = HEAD /\
   Express.dispatch
     (DevServer.before
        (Config.devServer (config Sample.toGMTString Sample.development https_false)) [])
     0%Z (Request HEAD "/") (Response [] None)
   = Sent (Response [("Date", "Thu, 01 Jan 1970 00:00:00 GMT")] (Some ""))) /\
  (req_method (Request GET "/room.html") <> HEAD /\
   Express.dispatch
     (DevServer.before
        (Config.devServer (config Sample.toGMTString Sample.development https_false)) [])
     0%Z (Request GET "/room.html") (Response [] None)
   = Next (Response [] None)).
Proof.
  pose proof (dev_server Sample.generate Sample.toGMTString Sample.development https_false)
    as (_ & Hload & Hhead & Hother).
  assert (Hl : load Sample.generate Sample.toGMTString Sample.development Sample.provisioned
               = (Return (config Sample.toGMTString Sample.development (https_pair "K" "C")),
                  Sample.provisioned))
    by (vm_compute; reflexivity).
  split; [|split].
  - split; [exact Hl | exact (Hload _ _ _ Hl)].
  - split; [reflexivity|]. exact (Hhead 0%Z (Request HEAD "/") (Response [] None) eq_refl).
  - assert (Hne : req_method (Request GET "/room.html") <> HEAD) by discriminate.
    split; [exact Hne|]. exact (Hother 0%Z (Request GET "/room.html") (Response [] None) Hne).
Defined.


(** * Instances of the further properties *)

(** A source map is left out of the size warnings. *)
Lemma assetFilter_ignores_media_and_maps_witness :
  (In "map" ["map"; "png"; "jpg"; "gif"; "glb"]
   /\ "room-4f2a.js.map" = "room-4f2a.js" +:+ "." +:+ "map") /\
  assetFilter "room-4f2a.js.map" = false.
Proof.
  assert (H : In "map" ["map"; "png"; "jpg"; "gif"; "glb"]
              /\ "room-4f2a.js.map" = "room-4f2a.js" +:+ "." +:+ "map")
    by (split; [left; reflexivity | reflexivity]).
  split; [exact H|].
  apply (proj2 (assetFilter_ignores_media_and_maps "room-4f2a.js.map")).
  exists "room-4f2a.js", "map". exact H.
Defined.

(** The sample asset url has a scheme, so the smoke path is longer. *)
Lemma smoke_publicPath_differs_witness :
  Env.truthy (Env.read Sample.smoke "GENERATE_SMOKE_TESTS") = true /\
  Env.read Sample.smoke "BASE_ASSETS_PATH" = Some "https://assets.example.com/hubs/" /\
  contains "://" "https://assets.example.com/hubs/" /\
  exists smoke,
    module_exports Sample.smoke (config Sample.toGMTString Sample.smoke https_false)
    = Return (Multi [config Sample.toGMTString Sample.smoke https_false; smoke]) /\
    String.length (Output.publicPath (Config.output smoke))
    = (String.length
         (Output.publicPath
            (Config.output (config Sample.toGMTString Sample.smoke https_false))) + 6)%nat /\
    Output.publicPath (Config.output smoke)
    <> Output.publicPath
         (Config.output (config Sample.toGMTString Sample.smoke https_false)).
Proof.
  assert (Hc : contains "://" "https://assets.example.com/hubs/")
    by (exists "https", "assets.example.com/hubs/"; reflexivity).
  split; [reflexivity|]. split; [reflexivity|]. split; [exact Hc|].
  apply (smoke_publicPath_differs Sample.toGMTString Sample.smoke https_false
           "https://assets.example.com/hubs/");
    [reflexivity | reflexivity | exact Hc].
Defined.

(** The smoke configuration of the sample smoke build pairs the room
    entry with one document. *)
Lemma every_export_pairs_entries_with_documents_witness :
  module_exports Sample.smoke (config Sample.toGMTString Sample.smoke https_false)
  = Return (Multi [config Sample.toGMTString Sample.smoke https_false;
                   smokeConfig "https://assets.example.com/hubs/"
                     (config Sample.toGMTString Sample.smoke https_false)]) /\
  "room" ∈ map fst (Config.entry
                      (smokeConfig "https://assets.example.com/hubs/"
                         (config Sample.toGMTString Sample.smoke https_false))) /\
  length (filter (fun o => Html.chunks o = ["room"])
            (html_outputs
               (Config.plugins
                  (smokeConfig "https://assets.example.com/hubs/"
                     (config Sample.toGMTString Sample.smoke https_false)))))
  = 1%nat.
Proof.
  assert (He : module_exports Sample.smoke
                 (config Sample.toGMTString Sample.smoke https_false)
               = Return (Multi [config Sample.toGMTString Sample.smoke https_false;
                                smokeConfig "https://assets.example.com/hubs/"
                                  (config Sample.toGMTString Sample.smoke https_false)]))
    by reflexivity.
  assert (Hin : "room" ∈ map fst
                  (Config.entry
                     (smokeConfig "https://assets.example.com/hubs/"
                        (config Sample.toGMTString Sample.smoke https_false))))
    by (cbn; repeat constructor).
  split; [exact He|]. split; [exact Hin|].
  assert (Hc : smokeConfig "https://assets.example.com/hubs/"
                 (config Sample.toGMTString Sample.smoke https_false)
               ∈ exported_configs
                   (Multi [config Sample.toGMTString Sample.smoke https_false;
                           smokeConfig "https://assets.example.com/hubs/"
                             (config Sample.toGMTString Sample.smoke https_false)]))
    by (cbn [exported_configs]; apply list_elem_of_further, list_elem_of_here).
  apply (proj1 (every_export_pairs_entries_with_documents
                  Sample.toGMTString Sample.smoke https_false _ _ He Hc)).
  exact Hin.
Defined.

(** The three documents of the file and their three smoke twins. *)
Lemma smoke_documents_never_collide_witness :
  NoDup (html_filenames (plugins Sample.development)) /\
  (forall f, f ∈ html_filenames (plugins Sample.development) ->
             Str.startsWith "smoke-" f = false) /\
  NoDup (html_filenames (plugins Sample.development)
         ++ html_filenames (map smoke_plugin (plugins Sample.development))).
Proof.
  assert (Hnd : NoDup (html_filenames (plugins Sample.development)))
    by (apply (bool_decide_unpack _); vm_compute; exact I).
  assert (Hpre : forall f, f ∈ html_filenames (plugins Sample.development) ->
                           Str.startsWith "smoke-" f = false).
  { intros f Hf. cbn in Hf.
    repeat (apply elem_of_cons in Hf as [->|Hf]); [reflexivity..|].
    by apply elem_of_nil in Hf. }
  split; [exact Hnd|]. split; [exact Hpre|].
  apply (smoke_documents_never_collide (plugins Sample.development) Hnd Hpre).
Defined.

(** A variable the file never mentions changes nothing. *)
Lemma only_consulted_variables_matter_witness :
  (forall name, name ∈ consulted ->
     Sample.development !! name = (<[ "EDITOR" := "vi" ]> Sample.development) !! name) /\
  webpack_config Sample.generate Sample.toGMTString Sample.development Sample.fresh
  = webpack_config Sample.generate Sample.toGMTString
      (<[ "EDITOR" := "vi" ]> Sample.development) Sample.fresh.
Proof.
  assert (H : forall name, name ∈ consulted ->
                Sample.development !! name
                = (<[ "EDITOR" := "vi" ]> Sample.development) !! name).
  { intros name Hin. unfold consulted in Hin.
    repeat (apply elem_of_cons in Hin as [->|Hin]); [reflexivity..|].
    by apply elem_of_nil in Hin. }
  split; [exact H|].
  apply (only_consulted_variables_matter Sample.generate Sample.toGMTString _ _ _ H).
Defined.

(** A production build over stored certificates. *)
Lemma production_build_is_pure_witness :
  Sample.production !! "NODE_ENV" = Some "production" /\
  exists e,
    webpack_config Sample.generate Sample.toGMTString Sample.production Sample.provisioned
    = (Return e, Sample.provisioned) /\
    forall c,
      c ∈ exported_configs e ->
      DevServer.https (Config.devServer c) = https_false /\
      Config.devtool c = "source-map".
Proof.
  split; [reflexivity|].
  apply (production_build_is_pure Sample.generate Sample.toGMTString
           Sample.production Sample.provisioned).
  reflexivity.
Defined.

(** An empty certs/ fails the load; a provisioned one gives both
    configurations of a smoke build the stored pair. *)
Lemma webpack_config_outcome_witness :
  (createHTTPSConfig Sample.generate Sample.development Sample.emptied
   = (Throw (ENOENT ["certs"; "key.pem"]), Sample.emptied) /\
   webpack_config Sample.generate Sample.toGMTString Sample.development Sample.emptied
   = (Throw (ENOENT ["certs"; "key.pem"]), Sample.emptied)) /\
  (webpack_config Sample.generate Sample.toGMTString Sample.smoke Sample.provisioned
   = (Return (Multi [config Sample.toGMTString Sample.smoke (https_pair "K" "C");
                     smokeConfig "https://assets.example.com/hubs/"
                       (config Sample.toGMTString Sample.smoke (https_pair "K" "C"))]),
      Sample.provisioned) /\
   exists h,
     createHTTPSConfig Sample.generate Sample.smoke Sample.provisioned
     = (Return h, Sample.provisioned) /\
     forall c,
       c ∈ [config Sample.toGMTString Sample.smoke (https_pair "K" "C");
            smokeConfig "https://assets.example.com/hubs/"
              (config Sample.toGMTString Sample.smoke (https_pair "K" "C"))] ->
       DevServer.https (Config.devServer c) = h).
Proof.
  split.
  - assert (H : createHTTPSConfig Sample.generate Sample.development Sample.emptied
                = (Throw (ENOENT ["certs"; "key.pem"]), Sample.emptied))
      by (vm_compute; reflexivity).
    split; [exact H|].
    exact (proj2 (proj1 (webpack_config_outcome Sample.generate Sample.toGMTString
                           Sample.development Sample.emptied) _ _) H).
  - assert (H : webpack_config Sample.generate Sample.toGMTString Sample.smoke
                  Sample.provisioned
                = (Return (Multi [config Sample.toGMTString Sample.smoke (https_pair "K" "C");
                                  smokeConfig "https://assets.example.com/hubs/"
                                    (config Sample.toGMTString Sample.smoke
                                       (https_pair "K" "C"))]),
                   Sample.provisioned))
      by (vm_compute; reflexivity).
    split; [exact H|].
    exact (proj2 (webpack_config_outcome Sample.generate Sample.toGMTString
                    Sample.smoke Sample.provisioned) _ _ H).
Defined.

(** A first provisioning leaves the sources alone and keeps what was
    there. *)
Lemma createHTTPSConfig_touches_only_certs_witness :
  ((["src"; "room.js"] ∉ cert_paths) /\
   fs (snd (createHTTPSConfig Sample.generate Sample.development Sample.sources))
   !! ["src"; "room.js"]
   = fs Sample.sources !! ["src"; "room.js"]) /\
  (is_Some (fs Sample.sources !! ["src"]) /\
   is_Some (fs (snd (createHTTPSConfig Sample.generate Sample.development Sample.sources))
            !! ["src"])).
Proof.
  pose proof (createHTTPSConfig_touches_only_certs Sample.generate Sample.development
                Sample.sources) as (Hframe & Hkeep & _).
  assert (Hp : ["src"; "room.js"] ∉ cert_paths).
  { unfold cert_paths. intros H.
    repeat (apply elem_of_cons in H as [H|H]; [discriminate H|]).
    by apply elem_of_nil in H. }
  assert (Hs : is_Some (fs Sample.sources !! ["src"]))
    by (exists Dir; reflexivity).
  split.
  - split; [exact Hp | exact (Hframe _ Hp)].
  - split; [exact Hs | exact (Hkeep _ Hs)].
Defined.

(** A first load provisions; the next load returns and leaves the
    provisioned world as it is. *)
Lemma webpack_config_repeatable_witness :
  webpack_config Sample.generate Sample.toGMTString Sample.development Sample.fresh
  = (Return (Single (config Sample.toGMTString Sample.development
                       (https_pair "PRIVATE" "CERT"))),
     World (<[ ["certs"; "key.pem"] := File "PRIVATE" ]>
            (<[ ["certs"; "cert.pem"] := File "CERT" ]>
             {[ ["certs"] := Dir ]})) 1) /\
  exists e',
    webpack_config Sample.generate Sample.toGMTString Sample.development
      (World (<[ ["certs"; "key.pem"] := File "PRIVATE" ]>
              (<[ ["certs"; "cert.pem"] := File "CERT" ]>
               {[ ["certs"] := Dir ]})) 1)
    = (Return e',
       World (<[ ["certs"; "key.pem"] := File "PRIVATE" ]>
              (<[ ["certs"; "cert.pem"] := File "CERT" ]>
               {[ ["certs"] := Dir ]})) 1).
Proof.
  assert (H : webpack_config Sample.generate Sample.toGMTString Sample.development
                Sample.fresh
              = (Return (Single (config Sample.toGMTString Sample.development
                                   (https_pair "PRIVATE" "CERT"))),
                 World (<[ ["certs"; "key.pem"] := File "PRIVATE" ]>
                        (<[ ["certs"; "cert.pem"] := File "CERT" ]>
                         {[ ["certs"] := Dir ]})) 1))
    by (vm_compute; reflexivity).
  split; [exact H|].
  exact (webpack_config_repeatable Sample.generate Sample.toGMTString _ _ _ _ H).
Defined.
